(** * Thesis: Gaussian Naive Bayes pipeline and feed-forward network

    A shallow embedding of the two scripts of the repository,
    [Software/geras/bayesian_network.py] and [Software/texW2V/lstm.py],
    with the properties of the cross-validation loop, the label
    mapping, the dropped columns, the confusion-matrix metrics and the
    network configuration.

    The scripts are thin drivers over pandas, numpy, scikit-learn and
    Keras.  The library calls they make are modelled by their documented
    behaviour (sections "Library models"); what the classifier's fit
    and prediction compute or raise, and the pseudo-random generator,
    stay abstract (classes [Estimator] and [Generator]).  Floats are
    IEEE 754 binary64, as in
    Python and numpy.  The plotting functions of both scripts, which
    [bayesian_network.py] never calls, are left out. *)

From Stdlib Require Import String Ascii.
From Stdlib Require Import ZArith List Bool Lia Floats Sorted Permutation.
Import ListNotations.
Local Open Scope string_scope.
Local Open Scope list_scope.
Local Open Scope Z_scope.

Set Implicit Arguments.
Set Warnings "-inexact-float".

(* ================================================================== *)
(** * Python runtime: exceptions, console, and the script monad *)
(* ================================================================== *)

(** Why a [ValueError] was raised (Python carries a message; the model
    keeps its content structured). *)
Inductive value_error : Type :=
| NotEnoughValuesToUnpack (expected got : nat)
| TooManyValuesToUnpack (expected : nat)
| InconsistentNumbersOfSamples (n_true n_pred : nat)
| TooManySplits (n_splits n_samples : nat)
| InvalidInput (what : string).

(** A key that a pandas lookup did not find. *)
Inductive key : Type :=
| ColumnKey (name : string)
| RowKey (label : nat).

Inductive exception : Type :=
| KeyError (missing : list key)
| ValueError (why : value_error)
| NameError (name : string)
| FileNotFoundError (path : string)
| NotFittedError.

Inductive result (A : Type) : Type :=
| Ok (a : A)
| Raise (e : exception).

Arguments Ok {A} a.
Arguments Raise {A} e.

(** numpy's floating-point error conditions; with numpy's default error
    state each one is reported as a [RuntimeWarning], not raised. *)
Inductive runtime_warning : Type :=
| DivideByZero
| InvalidValue.

(** What reaches the console, in order: a [print] of a formatted line
    (the format string and its two arguments are kept, the rendering of
    the text is left to Python), or a warning. *)
Inductive event : Type :=
| Printed (fmt caption : string) (number : float)
| Warned (w : runtime_warning).

Definition console : Type := list event.

(** A computation of the script: it may extend the console and may end
    in an uncaught exception.  What was printed before the exception
    stays printed. *)
Definition py (A : Type) : Type := console -> result A * console.

Definition ret {A} (a : A) : py A := fun out => (Ok a, out).

Definition raise {A} (e : exception) : py A := fun out => (Raise e, out).

Definition bind {A B} (m : py A) (k : A -> py B) : py B :=
  fun out =>
    match m out with
    | (Ok a, out') => k a out'
    | (Raise e, out') => (Raise e, out')
    end.

Definition lift {A} (r : result A) : py A := fun out => (r, out).

Definition emit (e : event) : py unit := fun out => (Ok tt, out ++ [e]).

Notation "x <- m ;; k" := (bind m (fun x => k))
  (at level 61, m at next level, right associativity).
Notation "' pat <- m ;; k" := (bind m (fun x => match x with pat => k end))
  (at level 61, pat pattern, m at next level, right associativity).
Notation "m ;;; k" := (bind m (fun _ => k))
  (at level 61, right associativity).

(** [print(fmt.format(caption, number))]. *)
Definition print (fmt caption : string) (number : float) : py unit :=
  emit (Printed fmt caption number).

(** The binding of exceptions for pure library calls. *)
Definition rbind {A B} (r : result A) (k : A -> result B) : result B :=
  match r with
  | Ok a => k a
  | Raise e => Raise e
  end.

(* ================================================================== *)
(** * Library models: numpy *)
(* ================================================================== *)

(** Conversion of an int64 to a float64 (round to nearest even).  The
    values converted by the script are counts of rows. *)
Definition float_of_int64 (z : Z) : float :=
  if z <? 0 then PrimFloat.opp (PrimFloat.of_uint63 (Uint63.of_Z (- z)))
  else PrimFloat.of_uint63 (Uint63.of_Z z).

(** The value of [a / b] on numpy int64 scalars: both operands are
    converted to float64 and divided as IEEE 754 says, so [0 / 0] is
    NaN and [a / 0] is an infinity. *)
Definition true_divide (a b : Z) : float :=
  PrimFloat.div (float_of_int64 a) (float_of_int64 b).

(** [a / b] with its effect: a zero divisor is reported as a
    [RuntimeWarning] and the computation goes on. *)
Definition np_true_divide (a b : Z) : py float :=
  if b =? 0 then
    emit (Warned (if a =? 0 then InvalidValue else DivideByZero)) ;;;
    ret (true_divide a b)
  else ret (true_divide a b).

(** [np.unique]: the distinct values, in increasing order. *)
Fixpoint insert_unique (x : Z) (l : list Z) : list Z :=
  match l with
  | [] => [x]
  | y :: l' =>
      if x <? y then x :: l
      else if x =? y then l
      else y :: insert_unique x l'
  end.

Definition np_unique (l : list Z) : list Z := fold_right insert_unique [] l.

(** [ndarray.ravel] of a two-dimensional array: its rows, one after
    the other. *)
Definition ravel (m : list (list Z)) : list Z := concat m.

(** [a, b, c, d = values]. *)
Definition unpack4 (values : list Z) : result (Z * Z * Z * Z) :=
  match values with
  | [a; b; c; d] => Ok (a, b, c, d)
  | _ =>
      if (length values <? 4)%nat
      then Raise (ValueError (NotEnoughValuesToUnpack 4 (length values)))
      else Raise (ValueError (TooManyValuesToUnpack 4))
  end.

(* ================================================================== *)
(** * Library models: pandas *)
(* ================================================================== *)

(** A value held by a table: text, an integer or a float.  A missing
    value is the float NaN. *)
Inductive cell : Type :=
| Str (s : string)
| Int (z : Z)
| Float (f : float).

(** A table as [pd.read_csv] returns it, with the default row labels
    0, 1, ..., [nrows - 1]; [data] holds the columns in order, each
    with its name and its [nrows] values.  [read_csv] renames a
    repeated header, so the names are pairwise distinct
    ([unique_columns] below). *)
Record DataFrame : Type := {
  nrows : nat;
  data : list (string * list cell)
}.

(** [df.columns]. *)
Definition columns (df : DataFrame) : list string := map fst (data df).

Definition has_column (df : DataFrame) (name : string) : bool :=
  existsb (String.eqb name) (columns df).

(** Column names as [pd.read_csv] leaves them: pairwise distinct. *)
Definition unique_columns (df : DataFrame) : Prop := NoDup (columns df).

(** [df[name]]: the column of that name. *)
Definition getitem (df : DataFrame) (name : string) : result (list cell) :=
  match find (fun c => String.eqb name (fst c)) (data df) with
  | Some c => Ok (snd c)
  | None => Raise (KeyError [ColumnKey name])
  end.

(** [series.apply(f)]. *)
Definition apply {A B} (f : A -> B) (series : list A) : list B := map f series.

(** [df.drop(columns=names)]: every name must be a column of [df]. *)
Definition drop (df : DataFrame) (names : list string) : result DataFrame :=
  match filter (fun n => negb (has_column df n)) names with
  | [] =>
      Ok {| nrows := nrows df;
            data := filter (fun c => negb (existsb (String.eqb (fst c)) names))
                           (data df) |}
  | missing => Raise (KeyError (map ColumnKey missing))
  end.

(** [series.loc[labels]]: the values at the given row labels, in the
    order given; a label that is not a row raises. *)
Definition loc_series {A} (default : A) (series : list A) (labels : list nat)
  : result (list A) :=
  match filter (fun i => negb (i <? length series)%nat) labels with
  | [] => Ok (map (fun i => nth i series default) labels)
  | missing => Raise (KeyError (map RowKey missing))
  end.

(** [df.loc[labels]]. *)
Definition loc (df : DataFrame) (labels : list nat) : result DataFrame :=
  match filter (fun i => negb (i <? nrows df)%nat) labels with
  | [] =>
      Ok {| nrows := length labels;
            data := map (fun c => (fst c,
                                   map (fun i => nth i (snd c) (Float nan)) labels))
                        (data df) |}
  | missing => Raise (KeyError (map RowKey missing))
  end.

(* ================================================================== *)
(** * Library models: sklearn.metrics *)
(* ================================================================== *)

(** [unique_labels(y_true, y_pred)]: the labels that occur in either
    vector, sorted. *)
Definition unique_labels (y_true y_pred : list Z) : list Z :=
  np_unique (y_true ++ y_pred).

(** Number of rows whose true label is [t] and predicted label is [p]. *)
Definition cell_count (y_true y_pred : list Z) (t p : Z) : Z :=
  Z.of_nat (length (filter (fun r => (fst r =? t) && (snd r =? p))
                           (combine y_true y_pred))).

(** [confusion_matrix(y_true, y_pred)] with its default [labels=None]:
    entry (i, j) counts the rows of true label [labels[i]] predicted as
    [labels[j]], over the sorted labels that occur at all.  The matrix
    has as many rows and columns as there are distinct labels. *)
Definition confusion_matrix (y_true y_pred : list Z) : result (list (list Z)) :=
  if (length y_true =? length y_pred)%nat then
    let labels := unique_labels y_true y_pred in
    Ok (map (fun t => map (fun p => cell_count y_true y_pred t p) labels) labels)
  else
    Raise (ValueError (InconsistentNumbersOfSamples (length y_true) (length y_pred))).

(** Number of rows predicted with their true label. *)
Definition matches (y_true y_pred : list Z) : Z :=
  Z.of_nat (length (filter (fun r => fst r =? snd r) (combine y_true y_pred))).

(** [accuracy_score(y_true, y_pred)]: the mean of [y_true == y_pred]. *)
Definition accuracy_score (y_true y_pred : list Z) : result float :=
  if (length y_true =? length y_pred)%nat then
    Ok (true_divide (matches y_true y_pred) (Z.of_nat (length y_true)))
  else
    Raise (ValueError (InconsistentNumbersOfSamples (length y_true) (length y_pred))).

(* ================================================================== *)
(** * Library models: Keras *)
(* ================================================================== *)

Module Keras.

(** The layers the script uses.  A [Dense] layer may state the width
    of its input; a [Dropout] layer keeps the width of its input. *)
Inductive layer : Type :=
| Dense (units : nat) (input_dim : option nat) (activation : string)
| Dropout (rate : float).

(** Arguments of [compile]. *)
Record compilation : Type := {
  loss : string;
  optimizer : string;
  metrics : list string
}.

(** A [Sequential] model: its layers in the order they were added,
    and how it was compiled, if it was. *)
Record Sequential : Type := {
  layers : list layer;
  compiled : option compilation
}.

(** [Sequential()]. *)
Definition new : Sequential := {| layers := []; compiled := None |}.

(** [model.add(l)]. *)
Definition add (model : Sequential) (l : layer) : Sequential :=
  {| layers := layers model ++ [l]; compiled := compiled model |}.

(** [model.compile(loss=..., optimizer=..., metrics=...)]. *)
Definition compile (model : Sequential) (loss optimizer : string)
    (metrics : list string) : Sequential :=
  {| layers := layers model;
     compiled := Some {| loss := loss; optimizer := optimizer;
                         metrics := metrics |} |}.



(** [EarlyStopping(monitor=..., patience=...)]; [min_delta] is 0 unless
    given. *)
Record EarlyStopping : Type := {
  monitor : string;
  patience : nat;
  min_delta : float
}.

(** The arguments of one call of [model.fit]. *)
Record training (Data : Type) : Type := {
  trained : Sequential;
  x : Data;
  y : Data;
  validation_split : float;
  epochs : nat;
  batch_size : nat;
  callbacks : list EarlyStopping
}.



(** What an [EarlyStopping] callback remembers between epochs. *)
Record stopper : Type := {
  wait : nat;
  best : float;
  stop_training : bool
}.

(** [on_train_begin]: nothing waited for, no loss seen. *)
Definition on_train_begin : stopper :=
  {| wait := 0; best := infinity; stop_training := false |}.

(** [on_epoch_end] for a monitored quantity that should decrease: an
    improvement resets the wait, anything else lengthens it, and a
    wait of [patience] epochs stops the training. *)
Definition on_epoch_end (es : EarlyStopping) (st : stopper) (current : float)
  : stopper :=
  if PrimFloat.ltb (PrimFloat.sub current (min_delta es)) (best st) then
    {| wait := 0; best := current; stop_training := stop_training st |}
  else
    {| wait := S (wait st); best := best st;
       stop_training := stop_training st || (patience es <=? S (wait st))%nat |}.

(** The loop over epochs of [fit]: [todo] epochs are left, [epoch] have
    been run, [sts] are the callbacks' states; [monitored epoch] is the
    value of the monitored quantity at the end of an epoch.  The result
    is the number of epochs run. *)
Fixpoint run_epochs (cbs : list EarlyStopping) (monitored : nat -> float)
    (todo epoch : nat) (sts : list stopper) : nat :=
  match todo with
  | O => epoch
  | S todo' =>
      let sts' :=
        map (fun c => on_epoch_end (fst c) (snd c) (monitored epoch))
            (combine cbs sts) in
      if existsb stop_training sts' then S epoch
      else run_epochs cbs monitored todo' (S epoch) sts'
  end.

(** Number of epochs the loop of [fit] goes through, once [fit] has
    accepted its data and started it ([fit] below is the whole call). *)
Definition epochs_run {Data} (t : training Data) (monitored : nat -> float) : nat :=
  run_epochs (callbacks t) monitored (epochs t) 0
             (map (fun _ => on_train_begin) (callbacks t)).

(** [model.fit(x, y, ...)].  Before the first epoch Keras checks the
    data against the model and raises if they do not go together (no
    sample left to train on, another input width than the first layer
    states, [x] and [y] of different lengths); [accepts] stands for
    this check.  Only then does the loop over the epochs start; the
    result is the number of epochs it ran. *)
Definition fit {Data} (accepts : Sequential -> Data -> Data -> result unit)
    (t : training Data) (monitored : nat -> float) : result nat :=
  rbind (accepts (trained t) (x t) (y t)) (fun _ =>
  Ok (epochs_run t monitored)).

End Keras.

(* ================================================================== *)
(** * lstm.py *)
(* ================================================================== *)

Module Lstm.

(** Lines 7-16: the model, built layer by layer and compiled. *)
Definition model : Keras.Sequential :=
  let model := Keras.new in
  let model := Keras.add model (Keras.Dense 24 (Some 24%nat) "relu") in
  let model := Keras.add model (Keras.Dropout 0.2%float) in
  let model := Keras.add model (Keras.Dense 12 None "relu") in
  let model := Keras.add model (Keras.Dropout 0.2%float) in
  let model := Keras.add model (Keras.Dense 8 None "relu") in
  let model := Keras.add model (Keras.Dropout 0.2%float) in
  let model := Keras.add model (Keras.Dense 1 None "sigmoid") in
  Keras.compile model "binary_crossentropy" "adam" ["accuracy"].

(** Line 19: [es = EarlyStopping(monitor='val_loss', patience=40)]. *)
Definition es : Keras.EarlyStopping :=
  {| Keras.monitor := "val_loss"; Keras.patience := 40;
     Keras.min_delta := 0%float |}.

(** Line 20: the call of [model.fit].  [x_train] and [y_train] are
    free names of the script. *)
Definition history {Data} (x_train y_train : Data) : Keras.training Data :=
  {| Keras.trained := model;
     Keras.x := x_train; Keras.y := y_train;
     Keras.validation_split := 0.2%float;
     Keras.epochs := 1000;
     Keras.batch_size := 10;
     Keras.callbacks := [es] |}.

(** Lines 7-20 as a run of the file: when line 20 is reached, Python
    looks up [x_train] and then [y_train] among the names bound so far
    ([bound]; the file itself binds neither), and only then calls
    [model.fit]. *)
Definition run {Data} (bound : string -> option Data)
    (accepts : Keras.Sequential -> Data -> Data -> result unit)
    (monitored : nat -> float) : result nat :=
  match bound "x_train" with
  | None => Raise (NameError "x_train")
  | Some x_train =>
      match bound "y_train" with
      | None => Raise (NameError "y_train")
      | Some y_train => Keras.fit accepts (history x_train y_train) monitored
      end
  end.

End Lstm.

(* ================================================================== *)
(** * Library models: sklearn.model_selection and sklearn.naive_bayes *)
(* ================================================================== *)

(** [KFold(n_splits, random_state, shuffle)]. *)
Record KFold : Type := {
  n_splits : nat;
  random_state : option Z;
  shuffle : bool
}.

(** Sizes of the folds: the first [n_samples mod n_splits] folds get
    one row more than [n_samples / n_splits]. *)
Definition fold_sizes (n_splits n_samples : nat) : list nat :=
  map (fun i => (n_samples / n_splits
                 + (if i <? n_samples mod n_splits then 1 else 0))%nat)
      (seq 0 n_splits).

(** Consecutive slices of the (shuffled) indices, one per fold. *)
Fixpoint iter_test_indices (indices : list nat) (sizes : list nat)
  : list (list nat) :=
  match sizes with
  | [] => []
  | size :: rest =>
      firstn size indices :: iter_test_indices (skipn size indices) rest
  end.

(** One fold as [split] yields it: the rows outside the test slice and
    the rows inside it, each in increasing order (they are selected
    from [arange(n_samples)] by a boolean mask). *)
Definition train_test (n_samples : nat) (test : list nat) : list nat * list nat :=
  let mask i := existsb (Nat.eqb i) test in
  (filter (fun i => negb (mask i)) (seq 0 n_samples),
   filter mask (seq 0 n_samples)).

(** numpy's pseudo-random generator, left abstract: its states, the
    state a seed gives, and the permutation [shuffle] draws from a
    state (with the state after the draw). *)
Class Generator : Type := {
  rng : Type;
  RandomState : Z -> rng;
  rng_shuffle : rng -> list nat -> list nat * rng
}.

(** scikit-learn's Gaussian Naive Bayes, left abstract: the parameters
    a fit computes from a training set, and the labels these parameters
    predict for the rows of a table.  Both check their input first and
    raise instead of computing: a fit on a table with a missing value
    or with text in a column, a prediction for a table of no rows or of
    other columns than the parameters were fitted on. *)
Class Estimator : Type := {
  params : Type;
  gnb_fit : DataFrame -> list Z -> result params;
  gnb_predict : params -> DataFrame -> result (list Z)
}.

(* ================================================================== *)
(** * bayesian_network.py: evaluate_sen_spec *)
(* ================================================================== *)

(** The local variables of [evaluate_sen_spec] when it returns. *)
Record sen_spec : Type := {
  tn : Z; fp : Z; fn : Z; tp : Z;
  specificity : float;
  sensitivity : float
}.

(** Line 128: [tn, fp, fn, tp = confusion_matrix(y_true, y_pred).ravel()]. *)
Definition confusion_counts (y_true y_pred : list Z) : result (Z * Z * Z * Z) :=
  rbind (confusion_matrix y_true y_pred) (fun cm => unpack4 (ravel cm)).

Definition hundred : float := 100%float.

(** [evaluate_sen_spec(y_true, y_pred, set)].  Python returns [None];
    the model returns the locals so that they can be spoken about. *)
Definition evaluate_sen_spec (y_true y_pred : list Z) (set_ : string) : py sen_spec :=
  '(tn, fp, fn, tp) <- lift (confusion_counts y_true y_pred) ;;
  specificity <- np_true_divide tn (tn + fp) ;;
  sensitivity <- np_true_divide tp (tp + fn) ;;
  print "{0:<35s} {1:6.2f}%" ("Specificity on " ++ set_ ++ " set:")%string
        (PrimFloat.mul specificity hundred) ;;;
  print "{0:<35s} {1:6.2f}%" ("Sensitivity on " ++ set_ ++ " set:")%string
        (PrimFloat.mul sensitivity hundred) ;;;
  ret {| tn := tn; fp := fp; fn := fn; tp := tp;
         specificity := specificity; sensitivity := sensitivity |}.

Section Pipeline.

Context {G : Generator} {E : Estimator}.

(** [check_random_state(seed)]: without a seed the generator is numpy's
    global one, with an integer seed it is a fresh generator. *)
Definition check_random_state (seed : option Z) (global : rng) : rng :=
  match seed with
  | None => global
  | Some s => RandomState s
  end.

(** The indices the folds are sliced from, and the state numpy's
    global generator is left in. *)
Definition shuffled_indices (kf : KFold) (n_samples : nat) (global : rng)
  : list nat * rng :=
  let indices := seq 0 n_samples in
  if shuffle kf then
    let (shuffled, after) :=
      rng_shuffle (check_random_state (random_state kf) global) indices in
    (shuffled, match random_state kf with None => after | Some _ => global end)
  else (indices, global).

(** [kf.split(x)] for a table of [n_samples] rows, run when the global
    generator is in state [global]: the (train, validation) index
    pairs in the order they are yielded. *)
Definition split (kf : KFold) (n_samples : nat) (global : rng)
  : result (list (list nat * list nat)) * rng :=
  if (n_samples <? n_splits kf)%nat then
    (Raise (ValueError (TooManySplits (n_splits kf) n_samples)), global)
  else
    let (indices, after) := shuffled_indices kf n_samples global in
    (Ok (map (train_test n_samples)
             (iter_test_indices indices (fold_sizes (n_splits kf) n_samples))),
     after).

(** The classifier object: unfitted, or holding fitted parameters. *)
Record GaussianNB_model : Type := { fitted : option params }.

(** [GaussianNB()]. *)
Definition GaussianNB : GaussianNB_model := {| fitted := None |}.

(** [model.fit(X, y)]: the parameters are computed anew from [(X, y)];
    what the object held before is discarded (incremental training is
    [partial_fit], which the script does not call).  An exception of
    the computation is the exception of the call. *)
Definition fit (model : GaussianNB_model) (X : DataFrame) (y : list Z)
  : result GaussianNB_model :=
  rbind (gnb_fit X y) (fun p => Ok {| fitted := Some p |}).

(** [model.predict(X)]: an object that was never fitted raises
    [NotFittedError]; a fitted one predicts, or raises what the
    prediction raises. *)
Definition predict (model : GaussianNB_model) (X : DataFrame) : result (list Z) :=
  match fitted model with
  | Some p => gnb_predict p X
  | None => Raise NotFittedError
  end.

(** [model.score(X, y)]: the accuracy of [model.predict(X)] against [y]. *)
Definition score (model : GaussianNB_model) (X : DataFrame) (y : list Z)
  : result float :=
  rbind (predict model X) (fun y_pred => accuracy_score y y_pred).

(* ================================================================== *)
(** * bayesian_network.py *)
(* ================================================================== *)

(** [evaluate_accuracy(model, x_train, x_val, x_test, y_train, y_val, y_test)]. *)
Definition evaluate_accuracy (model : GaussianNB_model)
    (x_train x_val x_test : DataFrame) (y_train y_val y_test : list Z)
  : py unit :=
  score_ <- lift (score model x_train y_train) ;;
  print "{0:<35s} {1:6.3f}%" "Accuracy on train set:"
        (PrimFloat.mul score_ hundred) ;;;
  score_ <- lift (score model x_val y_val) ;;
  print "{0:<35s} {1:6.3f}%" "Accuracy on validation set:"
        (PrimFloat.mul score_ hundred) ;;;
  score_ <- lift (score model x_test y_test) ;;
  print "{0:<35s} {1:6.3f}%" "Accuracy on test set:"
        (PrimFloat.mul score_ hundred) ;;;
  y_pred <- lift (predict model x_train) ;;
  evaluate_sen_spec y_train y_pred "train" ;;;
  y_pred <- lift (predict model x_val) ;;
  evaluate_sen_spec y_val y_pred "validation" ;;;
  y_pred <- lift (predict model x_test) ;;
  evaluate_sen_spec y_test y_pred "test" ;;;
  ret tt.

(** Line 61: [kfold = KFold(n_splits=5, random_state=9, shuffle=True)]. *)
Definition kfold : KFold :=
  {| n_splits := 5; random_state := Some 9; shuffle := true |}.

(** The variables the loop of [do_kfold_validation] assigns. *)
Record fold_vars : Type := {
  x_train : DataFrame; x_val : DataFrame;
  y_train : list Z; y_val : list Z
}.

(** State of the loop: the classifier object, and the loop's variables
    once an iteration has bound them. *)
Definition loop_state : Type := (GaussianNB_model * option fold_vars)%type.

(** Lines 68-69: the rows of [x] and [y] one (train, validation) pair
    of index lists selects. *)
Definition fold_selection (x : DataFrame) (y : list Z)
    (indices : list nat * list nat) : result fold_vars :=
  let (train_index, val_index) := indices in
  rbind (loc x train_index) (fun x_train =>
  rbind (loc x val_index) (fun x_val =>
  rbind (loc_series 0 y train_index) (fun y_train =>
  rbind (loc_series 0 y val_index) (fun y_val =>
  Ok {| x_train := x_train; x_val := x_val;
        y_train := y_train; y_val := y_val |})))).

(** Lines 68-71, the body of the loop: the selection, then line 71,
    [model.fit(x_train, y_train)], on the one classifier object.  An
    exception of either ends the iteration, and with it the loop. *)
Definition fold_body (x : DataFrame) (y : list Z) (st : loop_state)
    (indices : list nat * list nat) : result loop_state :=
  rbind (fold_selection x y indices) (fun v =>
  rbind (fit (fst st) (x_train v) (y_train v)) (fun model =>
  Ok (model, Some v))).

(** [for item in items: state = body(state, item)]. *)
Fixpoint for_each {S A} (body : S -> A -> result S) (items : list A) (s : S)
  : result S :=
  match items with
  | [] => Ok s
  | item :: rest => rbind (body s item) (for_each body rest)
  end.

(** Lines 61-71: the state the loop ends in. *)
Definition kfold_loop (x : DataFrame) (y : list Z) (global : rng)
  : result loop_state :=
  rbind (fst (split kfold (nrows x) global)) (fun folds =>
  for_each (fold_body x y) folds (GaussianNB, None)).

(** [do_kfold_validation(x, y, x_test, y_test)], run when numpy's
    global generator is in state [global]. *)
Definition do_kfold_validation (x : DataFrame) (y : list Z)
    (x_test : DataFrame) (y_test : list Z) (global : rng) : py unit :=
  st <- lift (kfold_loop x y global) ;;
  match snd st with
  | Some v =>
      evaluate_accuracy (fst st) (x_train v) (x_val v) x_test
                        (y_train v) (y_val v) y_test
  | None => raise (NameError "x_train")
  end.

(** The lambda of lines 38 and 44: [1 if x == 'Y' else 0]. *)
Definition label_of (x : cell) : Z :=
  match x with
  | Str s => if String.eqb s "Y" then 1 else 0
  | _ => 0
  end.

(** Lines 38-46: the four values [split_dataframe] hands on. *)
Definition split_dataframe_values (df df_test : DataFrame)
  : result (DataFrame * list Z * DataFrame * list Z) :=
  rbind (getitem df "dementia") (fun labels =>
  let y := apply label_of labels in
  rbind (drop df ["dementia"; "pauses"; "retracing_reform"]) (fun x =>
  rbind (getitem df_test "dementia") (fun labels_test =>
  let y_test := apply label_of labels_test in
  rbind (drop df_test ["dementia"; "pauses"; "retracing_reform"]) (fun x_test =>
  Ok (x, y, x_test, y_test))))).

(** [split_dataframe(df, df_test)]. *)
Definition split_dataframe (df df_test : DataFrame) (global : rng) : py unit :=
  '(x, y, x_test, y_test) <- lift (split_dataframe_values df df_test) ;;
  do_kfold_validation x y x_test y_test global.

(** [read_csv()], given what the working directory holds: the table
    parsed from each file that exists. *)
Definition read_csv (files : string -> option DataFrame) (global : rng) : py unit :=
  match files "train_set" with
  | None => raise (FileNotFoundError "train_set")
  | Some df =>
      match files "test_set" with
      | None => raise (FileNotFoundError "test_set")
      | Some df_test => split_dataframe df df_test global
      end
  end.

End Pipeline.

(* ================================================================== *)
(** * Vocabulary of the properties *)
(* ================================================================== *)

(** Number of rows of [rows] with true label [t] and predicted label [p]. *)
Definition tally (rows : list (Z * Z)) (t p : Z) : Z :=
  Z.of_nat (length (filter (fun r => (fst r =? t) && (snd r =? p)) rows)).

(** A vector of labels 0 and 1. *)
Definition binary (l : list Z) : Prop := Forall (fun v => v = 0 \/ v = 1) l.

(** The warning a division issues, if any. *)
Definition division_warnings (a b : Z) : list event :=
  if b =? 0 then [Warned (if a =? 0 then InvalidValue else DivideByZero)] else [].

(** What [evaluate_sen_spec] prints for given ratios. *)
Definition sen_spec_lines (set_ : string) (specificity sensitivity : float)
  : list event :=
  [Printed "{0:<35s} {1:6.2f}%" ("Specificity on " ++ set_ ++ " set:")%string
           (PrimFloat.mul specificity hundred);
   Printed "{0:<35s} {1:6.2f}%" ("Sensitivity on " ++ set_ ++ " set:")%string
           (PrimFloat.mul sensitivity hundred)].

(** What C1 asks of a run on true labels that are all 0: the run ends
    normally, the sensitivity it holds is NaN, and a warning was
    issued. *)
Definition reports_zero_denominator (run : result sen_spec * console) : Prop :=
  (exists s, fst run = Ok s /\ PrimFloat.is_nan (sensitivity s) = true) /\
  (exists w, In (Warned w) (snd run)).

(* ================================================================== *)
(** * Properties: labels and confusion counts *)
(* ================================================================== *)

Lemma cell_count_tally (y_true y_pred : list Z) (t p : Z) :
  cell_count y_true y_pred t p = tally (combine y_true y_pred) t p.
Proof. reflexivity. Qed.

Lemma In_insert_unique (x z : Z) (l : list Z) :
  In z (insert_unique x l) <-> z = x \/ In z l.
Proof.
  induction l as [|y l IH]; simpl.
  - intuition.
  - destruct (Z.ltb_spec x y); [simpl; intuition|].
    destruct (Z.eqb_spec x y); simpl.
    + subst; intuition.
    + rewrite IH; intuition.
Qed.

Lemma In_np_unique (z : Z) (l : list Z) : In z (np_unique l) <-> In z l.
Proof.
  induction l as [|x l IH]; simpl; [reflexivity|].
  rewrite In_insert_unique, IH. intuition.
Qed.

Lemma insert_unique_sorted (x : Z) (l : list Z) :
  StronglySorted Z.lt l -> StronglySorted Z.lt (insert_unique x l).
Proof.
  induction 1 as [|y l Hs IH Hall]; simpl.
  - repeat constructor.
  - destruct (Z.ltb_spec x y).
    + constructor; [constructor; assumption|].
      constructor; [assumption|].
      eapply Forall_impl; [|exact Hall]. simpl; intros; lia.
    + destruct (Z.eqb_spec x y); [constructor; assumption|].
      constructor; [assumption|].
      rewrite Forall_forall in *. intros z Hz.
      apply In_insert_unique in Hz. destruct Hz as [->|Hz]; [lia|auto].
Qed.

Lemma np_unique_sorted (l : list Z) : StronglySorted Z.lt (np_unique l).
Proof.
  induction l; simpl; [constructor | apply insert_unique_sorted; assumption].
Qed.

(** The distinct labels of a vector of 0s and 1s. *)
Lemma np_unique_binary (l : list Z) :
  binary l ->
  np_unique l = (if existsb (Z.eqb 0) l then [0] else [])
                ++ (if existsb (Z.eqb 1) l then [1] else []).
Proof.
  induction 1 as [|v l Hv _ IH]; simpl; [reflexivity|].
  rewrite IH.
  destruct Hv as [-> | ->]; simpl;
    destruct (existsb (Z.eqb 0) l), (existsb (Z.eqb 1) l); reflexivity.
Qed.

Lemma existsb_eqb_In (v : Z) (l : list Z) :
  existsb (Z.eqb v) l = true <-> In v l.
Proof.
  rewrite existsb_exists. split.
  - intros (x & Hin & Heq). apply Z.eqb_eq in Heq. now subst.
  - intros Hin. exists v. split; [assumption | apply Z.eqb_refl].
Qed.

Lemma length_concat_table {A} (f : Z -> Z -> A) (outer inner : list Z) :
  length (concat (map (fun t => map (fun p => f t p) inner) outer))
  = (length outer * length inner)%nat.
Proof.
  induction outer as [|t outer IH]; simpl; [reflexivity|].
  rewrite length_app, length_map, IH. reflexivity.
Qed.

Lemma unpack4_Ok (values : list Z) (a b c d : Z) :
  unpack4 values = Ok (a, b, c, d) <-> values = [a; b; c; d].
Proof.
  split.
  - destruct values as [|v0 [|v1 [|v2 [|v3 [|v4 rest]]]]]; simpl;
      try discriminate.
    intros H; injection H as -> -> -> ->; reflexivity.
  - intros ->. reflexivity.
Qed.

Lemma Forall_filter_nil {A} (f : A -> bool) (l : list A) :
  Forall (fun a => f a = false) l -> filter f l = [].
Proof.
  induction 1 as [|a l Ha _ IH]; simpl; [reflexivity|]. now rewrite Ha.
Qed.

Lemma existsb_eqb_false (v : Z) (l : list Z) :
  existsb (Z.eqb v) l = false <-> ~ In v l.
Proof.
  rewrite <- existsb_eqb_In. destruct (existsb (Z.eqb v) l); intuition congruence.
Qed.

(** Line 128 returns four counts exactly when two labels occur; the
    counts are then those of the four cells, true label first. *)
Lemma confusion_counts_Ok (y_true y_pred : list Z) (tn fp fn tp : Z) :
  confusion_counts y_true y_pred = Ok (tn, fp, fn, tp) <->
  length y_true = length y_pred /\
  exists a b,
    unique_labels y_true y_pred = [a; b] /\
    tn = cell_count y_true y_pred a a /\ fp = cell_count y_true y_pred a b /\
    fn = cell_count y_true y_pred b a /\ tp = cell_count y_true y_pred b b.
Proof.
  unfold confusion_counts, confusion_matrix.
  destruct (Nat.eqb_spec (length y_true) (length y_pred)) as [Hlen|Hlen]; simpl.
  - rewrite unpack4_Ok. split.
    + intros H. split; [assumption|].
      assert (Hk : (length (unique_labels y_true y_pred)
                    * length (unique_labels y_true y_pred) = 4)%nat).
      { erewrite <- (length_concat_table (cell_count y_true y_pred)).
        unfold ravel in H. rewrite H. reflexivity. }
      destruct (unique_labels y_true y_pred) as [|a [|b [|c rest]]];
        simpl in Hk; try lia.
      exists a, b. simpl in H. injection H as <- <- <- <-. auto.
    + intros (_ & a & b & -> & -> & -> & -> & ->). reflexivity.
  - split; [discriminate|]. intros (H & _). contradiction.
Qed.

(** With a single label the matrix has one entry and the unpacking
    fails. *)
Lemma confusion_counts_one_label (y_true y_pred : list Z) (a : Z) :
  length y_true = length y_pred ->
  unique_labels y_true y_pred = [a] ->
  confusion_matrix y_true y_pred = Ok [[cell_count y_true y_pred a a]] /\
  confusion_counts y_true y_pred
  = Raise (ValueError (NotEnoughValuesToUnpack 4 1)).
Proof.
  intros Hlen Hl. unfold confusion_counts, confusion_matrix.
  apply Nat.eqb_eq in Hlen. rewrite Hlen, Hl. split; reflexivity.
Qed.

Lemma rows_in_labels (y_true y_pred : list Z) :
  Forall (fun r => In (fst r) (unique_labels y_true y_pred)
                   /\ In (snd r) (unique_labels y_true y_pred))
         (combine y_true y_pred).
Proof.
  apply Forall_forall. intros [t p] Hin. unfold unique_labels; simpl.
  rewrite !In_np_unique, !in_app_iff. split.
  - left. eapply in_combine_l; eassumption.
  - right. eapply in_combine_r; eassumption.
Qed.

(** Every row falls in exactly one of the four cells. *)
Lemma four_cells_total (a b : Z) (rows : list (Z * Z)) :
  a <> b ->
  Forall (fun r => In (fst r) [a; b] /\ In (snd r) [a; b]) rows ->
  tally rows a a + tally rows a b + tally rows b a + tally rows b b
  = Z.of_nat (length rows).
Proof.
  intros Hab. unfold tally. induction 1 as [|[t p] rows [Ht Hp] _ IH]; [reflexivity|].
  simpl in Ht, Hp. cbn [filter fst snd].
  destruct Ht as [<-|[<-|[]]], Hp as [<-|[<-|[]]];
    rewrite ?Z.eqb_refl;
    destruct (Z.eqb_spec a b); try contradiction;
    destruct (Z.eqb_spec b a); try congruence;
    cbn [andb length]; lia.
Qed.

(** The rows predicted with their true label are those of the two
    diagonal cells. *)
Lemma diagonal_cells_matches (a b : Z) (rows : list (Z * Z)) :
  a <> b ->
  Forall (fun r => In (fst r) [a; b] /\ In (snd r) [a; b]) rows ->
  tally rows a a + tally rows b b
  = Z.of_nat (length (filter (fun r => fst r =? snd r) rows)).
Proof.
  intros Hab. unfold tally. induction 1 as [|[t p] rows [Ht Hp] _ IH]; [reflexivity|].
  simpl in Ht, Hp. cbn [filter fst snd].
  destruct Ht as [<-|[<-|[]]], Hp as [<-|[<-|[]]];
    rewrite ?Z.eqb_refl;
    destruct (Z.eqb_spec a b); try contradiction;
    destruct (Z.eqb_spec b a); try congruence;
    cbn [andb length]; lia.
Qed.

Lemma two_labels_distinct (l : list Z) (a b : Z) : np_unique l = [a; b] -> a < b.
Proof.
  intros H. pose proof (np_unique_sorted l) as Hs. rewrite H in Hs.
  inversion Hs as [|? ? _ Hall]; subst. inversion Hall; subst. assumption.
Qed.

(** No row has a true label that does not occur. *)
Lemma cell_count_absent (y_true y_pred : list Z) (t p : Z) :
  ~ In t y_true -> cell_count y_true y_pred t p = 0.
Proof.
  intros Hnot. unfold cell_count.
  replace (filter _ (combine y_true y_pred)) with (@nil (Z * Z)); [reflexivity|].
  symmetry. apply Forall_filter_nil.
  apply Forall_forall. intros [t' p'] Hin. simpl.
  destruct (Z.eqb_spec t' t) as [->|]; [|reflexivity].
  exfalso. apply Hnot. eapply in_combine_l; eassumption.
Qed.

(* ================================================================== *)
(** * Properties: evaluate_sen_spec *)
(* ================================================================== *)

Lemma np_true_divide_run (a b : Z) (out : console) :
  np_true_divide a b out = (Ok (true_divide a b), out ++ division_warnings a b).
Proof.
  unfold np_true_divide, division_warnings.
  destruct (b =? 0); cbn; [reflexivity | now rewrite app_nil_r].
Qed.

(** One run of [evaluate_sen_spec], in full: either line 128 raises and
    nothing reaches the console, or both ratios are computed and
    printed. *)
Lemma evaluate_sen_spec_run (y_true y_pred : list Z) (set_ : string)
    (out : console) :
  evaluate_sen_spec y_true y_pred set_ out =
  match confusion_counts y_true y_pred with
  | Raise e => (Raise e, out)
  | Ok (tn, fp, fn, tp) =>
      (Ok {| tn := tn; fp := fp; fn := fn; tp := tp;
             specificity := true_divide tn (tn + fp);
             sensitivity := true_divide tp (tp + fn) |},
       out ++ division_warnings tn (tn + fp) ++ division_warnings tp (tp + fn)
           ++ sen_spec_lines set_ (true_divide tn (tn + fp))
                             (true_divide tp (tp + fn)))
  end.
Proof.
  unfold evaluate_sen_spec, bind at 1, lift.
  destruct (confusion_counts y_true y_pred) as [[[[tn fp] fn] tp]|e]; [|reflexivity].
  unfold bind at 1. rewrite np_true_divide_run.
  unfold bind at 1. rewrite np_true_divide_run.
  cbn. rewrite <- !app_assoc. reflexivity.
Qed.

Lemma evaluate_sen_spec_counts (y_true y_pred : list Z) (set_ : string)
    (out out' : console) (s : sen_spec) :
  evaluate_sen_spec y_true y_pred set_ out = (Ok s, out') ->
  confusion_counts y_true y_pred = Ok (tn s, fp s, fn s, tp s).
Proof.
  rewrite evaluate_sen_spec_run.
  destruct (confusion_counts y_true y_pred) as [[[[a b] c] d]|e]; [|discriminate].
  intros H; injection H as <- _. reflexivity.
Qed.

Lemma counts_of_two_labels (y_true y_pred : list Z) (tn fp fn tp : Z) :
  confusion_counts y_true y_pred = Ok (tn, fp, fn, tp) ->
  tn + fp + fn + tp = Z.of_nat (length y_true) /\
  tn + tp = matches y_true y_pred.
Proof.
  intros H. apply confusion_counts_Ok in H.
  destruct H as (Hlen & a & b & Hl & -> & -> & -> & ->).
  pose proof (two_labels_distinct _ Hl) as Hab.
  pose proof (rows_in_labels y_true y_pred) as Hrows.
  unfold unique_labels in *. rewrite Hl in Hrows.
  rewrite !cell_count_tally. split.
  - rewrite four_cells_total by (assumption || lia).
    rewrite length_combine, <- Hlen, Nat.min_id. reflexivity.
  - apply diagonal_cells_matches; [lia | assumption].
Qed.

(** C4.  For true and predicted label vectors of [n] entries each, the
    four confusion counts that [evaluate_sen_spec] obtains on line 128
    add up to [n]: tn + fp + fn + tp = n. *)
Theorem confusion_counts_sum_to_n (n : nat) (y_true y_pred : list Z)
    (set_ : string) (out out' : console) (s : sen_spec) :
  length y_true = n -> length y_pred = n ->
  evaluate_sen_spec y_true y_pred set_ out = (Ok s, out') ->
  tn s + fp s + fn s + tp s = Z.of_nat n.
Proof.
  intros Hn _ Hrun. apply evaluate_sen_spec_counts in Hrun.
  apply counts_of_two_labels in Hrun. subst n. tauto.
Qed.

(** C6.  On labels [1,1,1,1,0,0,0,0] and predictions [1,1,0,1,0,0,1,0],
    [evaluate_sen_spec] obtains tp = 3, fn = 1, tn = 3, fp = 1 and
    computes sensitivity 0.75 and specificity 0.75 (printed as 75 per
    cent each, without any warning). *)
Theorem evaluate_sen_spec_scenario_counts (set_ : string) (out : console) :
  evaluate_sen_spec [1;1;1;1;0;0;0;0] [1;1;0;1;0;0;1;0] set_ out =
  (Ok {| tn := 3; fp := 1; fn := 1; tp := 3;
         specificity := 0.75%float; sensitivity := 0.75%float |},
   out ++ [Printed "{0:<35s} {1:6.2f}%"
                   ("Specificity on " ++ set_ ++ " set:")%string 75%float;
           Printed "{0:<35s} {1:6.2f}%"
                   ("Sensitivity on " ++ set_ ++ " set:")%string 75%float]).
Proof. rewrite evaluate_sen_spec_run. reflexivity. Qed.

Lemma binary_app (l l' : list Z) : binary l -> binary l' -> binary (l ++ l').
Proof. intros H H'. unfold binary. rewrite Forall_app. split; assumption. Qed.

(** The labels of binary vectors, by which of 0 and 1 occur. *)
Lemma unique_labels_binary (y_true y_pred : list Z) :
  binary y_true -> binary y_pred ->
  unique_labels y_true y_pred
  = (if existsb (Z.eqb 0) (y_true ++ y_pred) then [0] else [])
    ++ (if existsb (Z.eqb 1) (y_true ++ y_pred) then [1] else []).
Proof.
  intros Ht Hp. apply np_unique_binary, binary_app; assumption.
Qed.

Lemma one_cell_total (a : Z) (y_true y_pred : list Z) :
  length y_true = length y_pred ->
  unique_labels y_true y_pred = [a] ->
  cell_count y_true y_pred a a = Z.of_nat (length y_true).
Proof.
  intros Hlen Hl. pose proof (rows_in_labels y_true y_pred) as Hrows.
  rewrite Hl in Hrows. unfold cell_count.
  replace (filter _ (combine y_true y_pred)) with (combine y_true y_pred).
  - rewrite length_combine, <- Hlen, Nat.min_id. reflexivity.
  - symmetry. apply forallb_filter_id. apply forallb_forall.
    rewrite Forall_forall in Hrows. intros r Hr.
    destruct (Hrows r Hr) as [[<-|[]] [<-|[]]]. now rewrite !Z.eqb_refl.
Qed.

(** C10.  For label vectors over 0 and 1 (of equal length), the
    four-way unpacking of line 128 succeeds exactly when both values
    occur among the true and predicted labels together.  When only one
    value occurs the confusion matrix is 1 x 1 (its entry is the number
    of rows), the unpacking raises, and [evaluate_sen_spec] ends there:
    no ratio is computed, nothing is printed or warned about. *)
Theorem unpacking_needs_both_labels (y_true y_pred : list Z) :
  binary y_true -> binary y_pred -> length y_true = length y_pred ->
  ((exists counts, confusion_counts y_true y_pred = Ok counts) <->
   In 0 (y_true ++ y_pred) /\ In 1 (y_true ++ y_pred)) /\
  (y_true <> [] ->
   ~ (In 0 (y_true ++ y_pred) /\ In 1 (y_true ++ y_pred)) ->
   confusion_matrix y_true y_pred = Ok [[Z.of_nat (length y_true)]] /\
   forall set_ out,
     evaluate_sen_spec y_true y_pred set_ out
     = (Raise (ValueError (NotEnoughValuesToUnpack 4 1)), out)).
Proof.
  intros Ht Hp Hlen.
  pose proof (unique_labels_binary Ht Hp) as Hl.
  rewrite <- !existsb_eqb_In.
  destruct (existsb (Z.eqb 0) (y_true ++ y_pred)) eqn:E0,
           (existsb (Z.eqb 1) (y_true ++ y_pred)) eqn:E1; simpl in Hl.
  - (* both labels: a 2 x 2 matrix *)
    split; [|intros _ Hnot; exfalso; auto].
    split; [auto|]. intros _.
    eexists (_, _, _, _). apply confusion_counts_Ok. split; [assumption|].
    exists 0, 1. repeat split; try reflexivity. assumption.
  - (* only 0 *)
    split.
    + split; [|intros [_ H]; discriminate].
      intros [[[[a b] c] d] H]. apply confusion_counts_Ok in H.
      destruct H as (_ & x & y & Hxy & _). congruence.
    + intros _ _.
      destruct (confusion_counts_one_label _ _ Hlen Hl) as [Hcm Hcc].
      rewrite (one_cell_total _ _ Hlen Hl) in Hcm. split; [assumption|].
      intros set_ out. rewrite evaluate_sen_spec_run, Hcc. reflexivity.
  - (* only 1 *)
    split.
    + split; [|intros [H _]; discriminate].
      intros [[[[a b] c] d] H]. apply confusion_counts_Ok in H.
      destruct H as (_ & x & y & Hxy & _). congruence.
    + intros _ _.
      destruct (confusion_counts_one_label _ _ Hlen Hl) as [Hcm Hcc].
      rewrite (one_cell_total _ _ Hlen Hl) in Hcm. split; [assumption|].
      intros set_ out. rewrite evaluate_sen_spec_run, Hcc. reflexivity.
  - (* no label at all: the vectors are empty *)
    split.
    + split; [|intros [H _]; discriminate].
      intros [[[[a b] c] d] H]. apply confusion_counts_Ok in H.
      destruct H as (_ & x & y & Hxy & _). congruence.
    + intros Hne _. exfalso. destruct y_true as [|v y_true]; [congruence|].
      inversion Ht as [|? ? Hv _]; subst. simpl in E0, E1.
      destruct Hv as [-> | ->]; simpl in *; discriminate.
Qed.

Lemma one_label_run (a : Z) (y_true y_pred : list Z) (set_ : string)
    (out : console) :
  length y_true = length y_pred ->
  unique_labels y_true y_pred = [a] ->
  evaluate_sen_spec y_true y_pred set_ out
  = (Raise (ValueError (NotEnoughValuesToUnpack 4 1)), out).
Proof.
  intros Hlen Hl. rewrite evaluate_sen_spec_run.
  destruct (confusion_counts_one_label _ _ Hlen Hl) as [_ ->]. reflexivity.
Qed.

(** C1, as the code has it.  On true labels that are all 0 (and at
    least one row), [evaluate_sen_spec] holds a NaN sensitivity, after
    numpy's warning for 0 / 0, only when some row is predicted 1: then
    fn = tp = 0, tn + fp is the number of rows, and "nan" is what the
    sensitivity line prints.  When every prediction is 0 as well, the
    unpacking of line 128 raises and nothing is reported. *)
Theorem only_zero_labels_sensitivity (y_true y_pred : list Z) (set_ : string)
    (out : console) :
  y_true <> [] -> Forall (eq 0) y_true -> binary y_pred ->
  length y_true = length y_pred ->
  (In 1 y_pred ->
   exists tn fp,
     tn + fp = Z.of_nat (length y_true) /\
     evaluate_sen_spec y_true y_pred set_ out
     = (Ok {| tn := tn; fp := fp; fn := 0; tp := 0;
              specificity := true_divide tn (tn + fp); sensitivity := nan |},
        out ++ [Warned InvalidValue]
            ++ sen_spec_lines set_ (true_divide tn (tn + fp)) nan)) /\
  (~ In 1 y_pred ->
   evaluate_sen_spec y_true y_pred set_ out
   = (Raise (ValueError (NotEnoughValuesToUnpack 4 1)), out)).
Proof.
  intros Hne Hz Hp Hlen.
  assert (Ht : binary y_true).
  { eapply Forall_impl; [|exact Hz]. intros v <-. now left. }
  assert (H1t : ~ In 1 y_true).
  { rewrite Forall_forall in Hz. intros H. apply Hz in H. discriminate. }
  assert (E0 : existsb (Z.eqb 0) (y_true ++ y_pred) = true).
  { apply existsb_eqb_In, in_or_app. left.
    destruct y_true as [|v l]; [congruence|].
    inversion Hz; subst. now left. }
  pose proof (unique_labels_binary Ht Hp) as Hl. rewrite E0 in Hl.
  split; intros H1.
  - assert (E1 : existsb (Z.eqb 1) (y_true ++ y_pred) = true).
    { apply existsb_eqb_In, in_or_app. now right. }
    rewrite E1 in Hl. simpl in Hl.
    assert (Hcc : confusion_counts y_true y_pred
                  = Ok (cell_count y_true y_pred 0 0, cell_count y_true y_pred 0 1,
                        0, 0)).
    { apply confusion_counts_Ok. split; [assumption|]. exists 0, 1.
      pose proof (fun p => @cell_count_absent y_true y_pred 1 p H1t) as Habs.
      rewrite !Habs. auto. }
    destruct (counts_of_two_labels _ _ Hcc) as [Hsum _].
    exists (cell_count y_true y_pred 0 0), (cell_count y_true y_pred 0 1).
    split; [lia|].
    rewrite evaluate_sen_spec_run, Hcc.
    assert (Hpos : 0 < Z.of_nat (length y_true)).
    { destruct y_true; [congruence | simpl length; lia]. }
    unfold division_warnings at 1.
    destruct (Z.eqb_spec (cell_count y_true y_pred 0 0 + cell_count y_true y_pred 0 1) 0);
      [lia|].
    reflexivity.
  - assert (E1 : existsb (Z.eqb 1) (y_true ++ y_pred) = false).
    { apply existsb_eqb_false. rewrite in_app_iff. tauto. }
    rewrite E1 in Hl. simpl in Hl.
    eapply one_label_run; eassumption.
Qed.

(** C1 fails as stated: three rows of true label 0, all predicted 0,
    end [evaluate_sen_spec] in the uncaught [ValueError] of the
    unpacking, with nothing on the console. *)
Lemma all_zero_rows_are_not_reported :
  Forall (eq 0) [0; 0; 0] /\
  evaluate_sen_spec [0; 0; 0] [0; 0; 0] "validation" []
  = (Raise (ValueError (NotEnoughValuesToUnpack 4 1)), []) /\
  ~ reports_zero_denominator
      (evaluate_sen_spec [0; 0; 0] [0; 0; 0] "validation" []).
Proof.
  split; [repeat constructor|]. split; [reflexivity|].
  intros [(s & Hs & _) _]. discriminate Hs.
Qed.

(* ================================================================== *)
(** * Properties: split_dataframe *)
(* ================================================================== *)

Lemma existsb_eqb_string (name : string) (names : list string) :
  existsb (String.eqb name) names = true <-> In name names.
Proof.
  rewrite existsb_exists. split.
  - intros (n & Hin & Heq). apply String.eqb_eq in Heq. now subst.
  - intros Hin. exists name. split; [assumption | apply String.eqb_refl].
Qed.

Lemma has_column_In (df : DataFrame) (name : string) :
  has_column df name = true <-> In name (columns df).
Proof. apply existsb_eqb_string. Qed.

Lemma getitem_Ok (df : DataFrame) (name : string) :
  has_column df name = true -> exists series, getitem df name = Ok series.
Proof.
  unfold has_column, columns, getitem.
  induction (data df) as [|[n col] d IH]; simpl; [discriminate|].
  destruct (String.eqb name n); simpl; eauto.
Qed.

Lemma columns_filter (keep : string -> bool) (d : list (string * list cell)) :
  map fst (filter (fun c => keep (fst c)) d) = filter keep (map fst d).
Proof.
  induction d as [|[n col] d IH]; simpl; [reflexivity|].
  destruct (keep n); simpl; now rewrite IH.
Qed.

(** Among distinct column names, as many are dropped as are named. *)
Lemma dropped_count (cols names : list string) :
  NoDup cols -> NoDup names -> incl names cols ->
  length (filter (fun c => existsb (String.eqb c) names) cols) = length names.
Proof.
  intros Hcols Hnames Hincl.
  apply Permutation_length, NoDup_Permutation;
    [apply NoDup_filter; assumption | assumption |].
  intros c. rewrite filter_In, existsb_eqb_string. split; [tauto|].
  intros Hc. split; [apply Hincl|]; assumption.
Qed.

(** [drop] of columns that are all there: it succeeds and the table
    has that many columns less. *)
Lemma drop_Ok (df : DataFrame) (names : list string) :
  unique_columns df -> NoDup names ->
  Forall (fun name => has_column df name = true) names ->
  exists x,
    drop df names = Ok x /\ nrows x = nrows df /\
    (length (columns x) + length names = length (columns df))%nat.
Proof.
  intros Hu Hn Hall. unfold drop.
  rewrite Forall_filter_nil
    by (eapply Forall_impl; [|exact Hall]; simpl; intros n ->; reflexivity).
  eexists. split; [reflexivity|]. split; [reflexivity|].
  unfold columns at 1; simpl.
  rewrite (columns_filter (fun c => negb (existsb (String.eqb c) names))).
  fold (columns df).
  rewrite <- (dropped_count Hu Hn).
  - rewrite Nat.add_comm. apply filter_length.
  - intros n Hin. rewrite Forall_forall in Hall. apply has_column_In, Hall, Hin.
Qed.

Lemma dropped_names_distinct : NoDup ["dementia"; "pauses"; "retracing_reform"].
Proof.
  repeat constructor; simpl; intuition discriminate.
Qed.

(** C7.  For tables (with distinct column names) that contain the
    columns 'dementia', 'pauses' and 'retracing_reform', the feature
    tables [split_dataframe] produces have exactly three columns less
    than the tables they come from. *)
Theorem split_dataframe_column_count (df df_test : DataFrame) :
  unique_columns df -> unique_columns df_test ->
  Forall (fun name => has_column df name = true)
         ["dementia"; "pauses"; "retracing_reform"] ->
  Forall (fun name => has_column df_test name = true)
         ["dementia"; "pauses"; "retracing_reform"] ->
  exists x y x_test y_test,
    split_dataframe_values df df_test = Ok (x, y, x_test, y_test) /\
    Z.of_nat (length (columns x)) = Z.of_nat (length (columns df)) - 3 /\
    Z.of_nat (length (columns x_test)) = Z.of_nat (length (columns df_test)) - 3.
Proof.
  intros Hu Hu' Hall Hall'.
  destruct (getitem_Ok df "dementia") as [labels Hl];
    [inversion Hall; assumption|].
  destruct (getitem_Ok df_test "dementia") as [labels' Hl'];
    [inversion Hall'; assumption|].
  destruct (drop_Ok Hu dropped_names_distinct Hall) as (x & Hx & _ & Hcount).
  destruct (drop_Ok Hu' dropped_names_distinct Hall') as (x' & Hx' & _ & Hcount').
  exists x, (apply label_of labels), x', (apply label_of labels').
  unfold split_dataframe_values. rewrite Hl, Hl'. simpl. rewrite Hx, Hx'. simpl.
  split; [reflexivity|]. simpl length in Hcount, Hcount'. lia.
Qed.

Lemma label_of_Y (x : cell) :
  (x = Str "Y" -> label_of x = 1) /\ (x <> Str "Y" -> label_of x = 0).
Proof.
  split.
  - intros ->. reflexivity.
  - intros Hx. destruct x as [s| |]; simpl; try reflexivity.
    destruct (String.eqb_spec s "Y") as [->|]; [congruence | reflexivity].
Qed.

Lemma apply_label_of (series : list cell) :
  Forall2 (fun x l => (x = Str "Y" -> l = 1) /\ (x <> Str "Y" -> l = 0))
          series (apply label_of series).
Proof.
  induction series; simpl; constructor; [apply label_of_Y | assumption].
Qed.

(** C9.  In [split_dataframe] the labels of the train table and of the
    test table are read off their 'dementia' columns row by row: the
    text 'Y' becomes 1, and every other value (the text 'N', any other
    text, a number, a missing value) becomes 0. *)
Theorem split_dataframe_label_mapping (df df_test x x_test : DataFrame)
    (y y_test : list Z) :
  split_dataframe_values df df_test = Ok (x, y, x_test, y_test) ->
  exists series series_test,
    getitem df "dementia" = Ok series /\
    getitem df_test "dementia" = Ok series_test /\
    Forall2 (fun v l => (v = Str "Y" -> l = 1) /\ (v <> Str "Y" -> l = 0))
            series y /\
    Forall2 (fun v l => (v = Str "Y" -> l = 1) /\ (v <> Str "Y" -> l = 0))
            series_test y_test.
Proof.
  unfold split_dataframe_values.
  destruct (getitem df "dementia") as [series|]; [simpl|discriminate].
  destruct (drop df _) as [x0|]; [simpl|discriminate].
  destruct (getitem df_test "dementia") as [series_test|]; [simpl|discriminate].
  destruct (drop df_test _) as [x1|]; [simpl|discriminate].
  intros H; injection H as <- <- <- <-.
  exists series, series_test. repeat split; apply apply_label_of.
Qed.

(* ================================================================== *)
(** * Properties: lstm.py *)
(* ================================================================== *)


(** A validation loss that never improves on its first value stops the
    training of the script after 41 epochs: the first sets the best
    loss, the next 40 are waited for. *)
Example early_stopping_after_patience (Data : Type) (x_train y_train : Data) :
  Keras.epochs_run (Lstm.history x_train y_train) (fun _ => 0.5%float) = 41%nat.
Proof. vm_compute. reflexivity. Qed.

(** As the file stands, nothing binds [x_train] when line 20 is
    reached: the run ends there in a [NameError], with the model built
    and compiled and [fit] not called. *)
Example lstm_run_unbound (Data : Type)
    (accepts : Keras.Sequential -> Data -> Data -> result unit)
    (monitored : nat -> float) :
  Lstm.run (fun _ => None) accepts monitored = Raise (NameError "x_train").
Proof. reflexivity. Qed.

(** With both names bound, data that [fit] refuses end the run before
    the first epoch; data that it accepts are trained on. *)
Example lstm_run_bound (Data : Type) (bound : string -> option Data)
    (accepts : Keras.Sequential -> Data -> Data -> result unit)
    (monitored : nat -> float) (x_train y_train : Data) :
  bound "x_train" = Some x_train -> bound "y_train" = Some y_train ->
  (forall e, accepts Lstm.model x_train y_train = Raise e ->
             Lstm.run bound accepts monitored = Raise e) /\
  (accepts Lstm.model x_train y_train = Ok tt ->
   Lstm.run bound accepts monitored
   = Ok (Keras.epochs_run (Lstm.history x_train y_train) monitored)).
Proof.
  intros Hx Hy. unfold Lstm.run, Keras.fit. rewrite Hx, Hy. simpl.
  split; [intros e He | intros He]; rewrite He; reflexivity.
Qed.


(* ================================================================== *)
(** * Properties: the folds and the loop of do_kfold_validation *)
(* ================================================================== *)

Section PipelineProperties.

Context {G : Generator} {E : Estimator}.

(** C3.  The fold partitioning of [do_kfold_validation] is
    reproducible: with the fixed seed 9, two runs on the same table
    yield the same (train, validation) index groups in the same order,
    whatever state numpy's global generator is in at each run (which
    the seeded split leaves as it found it). *)
Theorem kfold_split_reproducible (x : DataFrame) (global global' : rng) :
  fst (split kfold (nrows x) global) = fst (split kfold (nrows x) global') /\
  snd (split kfold (nrows x) global) = global.
Proof.
  unfold split, shuffled_indices, kfold; simpl.
  destruct (nrows x <? 5)%nat; [split; reflexivity|].
  destruct (rng_shuffle (RandomState 9) (seq 0 (nrows x))) as [shuffled after].
  split; reflexivity.
Qed.

Lemma train_test_bounded (n : nat) (test : list nat) :
  Forall (fun i => (i < n)%nat) (fst (train_test n test)) /\
  Forall (fun i => (i < n)%nat) (snd (train_test n test)).
Proof.
  unfold train_test; simpl.
  split; apply Forall_forall; intros i Hi; apply filter_In in Hi;
    destruct Hi as [Hi _]; apply in_seq in Hi; lia.
Qed.

Lemma no_missing_label (n : nat) (labels : list nat) :
  Forall (fun i => (i < n)%nat) labels ->
  filter (fun i => negb (i <? n)%nat) labels = [].
Proof.
  intros H. apply Forall_filter_nil. eapply Forall_impl; [|exact H].
  simpl. intros i Hi. apply Nat.ltb_lt in Hi. now rewrite Hi.
Qed.

(** Lines 68-69 succeed on index lists within the table. *)
Lemma fold_selection_Ok (x : DataFrame) (y : list Z) (fold : list nat * list nat) :
  length y = nrows x ->
  Forall (fun i => (i < nrows x)%nat) (fst fold) ->
  Forall (fun i => (i < nrows x)%nat) (snd fold) ->
  exists v, fold_selection x y fold = Ok v.
Proof.
  intros Hy Htrain Hval. destruct fold as [train_index val_index].
  unfold fold_selection, loc, loc_series. rewrite Hy. simpl in *.
  rewrite !no_missing_label by assumption. simpl. eauto.
Qed.

(** With at least five rows, the split yields five folds, each within
    the table. *)
Lemma split_kfold_Ok (n : nat) (global : rng) :
  (5 <= n)%nat ->
  exists folds,
    fst (split kfold n global) = Ok folds /\ length folds = 5%nat /\
    Forall (fun fold => Forall (fun i => (i < n)%nat) (fst fold) /\
                        Forall (fun i => (i < n)%nat) (snd fold)) folds.
Proof.
  intros Hn. unfold split, shuffled_indices, kfold; simpl.
  destruct (Nat.ltb_spec n 5); [lia|].
  destruct (rng_shuffle (RandomState 9) (seq 0 n)) as [shuffled after]. simpl.
  eexists. split; [reflexivity|]. split; [reflexivity|].
  repeat (constructor; [apply train_test_bounded|]). constructor.
Qed.

Lemma firstn_S_nth_error {A} (l : list A) (k : nat) (a : A) :
  nth_error l k = Some a -> firstn (S k) l = firstn k l ++ [a].
Proof.
  revert k. induction l as [|b l IH]; intros [|k]; simpl; try discriminate.
  - intros H; injection H as ->. reflexivity.
  - intros H. f_equal. apply IH, H.
Qed.

Lemma nth_error_firstn_Some {A} (l : list A) (k j : nat) (a : A) :
  nth_error (firstn k l) j = Some a -> (j < k)%nat /\ nth_error l j = Some a.
Proof.
  revert k j. induction l as [|b l IH]; intros [|k] [|j]; simpl;
    try discriminate.
  - intros H. split; [lia | exact H].
  - intros H. apply IH in H. destruct H as [Hj H]. split; [lia | exact H].
Qed.

(** The fits of the folds before the [k]-th one all succeed: the loop
    gets as far as the [k]-th fold. *)
Definition fits_before (x : DataFrame) (y : list Z)
    (folds : list (list nat * list nat)) (k : nat) : Prop :=
  forall j fold v,
    (j < k)%nat -> nth_error folds j = Some fold ->
    fold_selection x y fold = Ok v ->
    exists p, gnb_fit (x_train v) (y_train v) = Ok p.

(** Whatever the loop did in the iterations before, the iteration of a
    fold goes on with the parameters fitted on that fold's training
    rows alone, or it ends the loop with the exception of that fit. *)
Lemma for_each_through (x : DataFrame) (y : list Z)
    (before rest : list (list nat * list nat)) (fold : list nat * list nat)
    (v : fold_vars) (st : loop_state) :
  Forall (fun f => exists w p, fold_selection x y f = Ok w /\
                               gnb_fit (x_train w) (y_train w) = Ok p) before ->
  fold_selection x y fold = Ok v ->
  for_each (fold_body x y) (before ++ fold :: rest) st
  = rbind (gnb_fit (x_train v) (y_train v)) (fun p =>
    for_each (fold_body x y) rest ({| fitted := Some p |}, Some v)).
Proof.
  intros Hbefore Hv. revert st.
  induction Hbefore as [|f before (w & p & Hw & Hp) _ IH]; intros st; simpl.
  - unfold fold_body at 1, fit. rewrite Hv. simpl.
    destruct (gnb_fit (x_train v) (y_train v)); reflexivity.
  - unfold fold_body at 1, fit. rewrite Hw. simpl. rewrite Hp. simpl. apply IH.
Qed.

(** The folds before the [k]-th one, when their selections and their
    fits succeed. *)
Lemma fits_before_firstn (x : DataFrame) (y : list Z)
    (folds : list (list nat * list nat)) (k : nat) :
  Forall (fun f => exists w, fold_selection x y f = Ok w) folds ->
  fits_before x y folds k ->
  Forall (fun f => exists w p, fold_selection x y f = Ok w /\
                               gnb_fit (x_train w) (y_train w) = Ok p)
         (firstn k folds).
Proof.
  intros Hsel Hfits. apply Forall_forall. intros f Hf.
  apply In_nth_error in Hf. destruct Hf as [j Hj].
  apply nth_error_firstn_Some in Hj. destruct Hj as [Hlt Hj].
  rewrite Forall_forall in Hsel.
  destruct (Hsel f (nth_error_In _ _ Hj)) as [w Hw].
  destruct (Hfits j f w Hlt Hj Hw) as [p Hp].
  exists w, p. split; assumption.
Qed.

(** The loop up to and including the [k]-th fold, when it gets there. *)
Lemma for_each_fold (x : DataFrame) (y : list Z)
    (folds : list (list nat * list nat)) (k : nat)
    (fold : list nat * list nat) (v : fold_vars) (st : loop_state) :
  Forall (fun f => exists w, fold_selection x y f = Ok w) folds ->
  nth_error folds k = Some fold ->
  fold_selection x y fold = Ok v ->
  fits_before x y folds k ->
  for_each (fold_body x y) folds st
  = rbind (gnb_fit (x_train v) (y_train v)) (fun p =>
    for_each (fold_body x y) (skipn (S k) folds)
             ({| fitted := Some p |}, Some v)) /\
  for_each (fold_body x y) (firstn (S k) folds) st
  = rbind (gnb_fit (x_train v) (y_train v)) (fun p =>
    Ok ({| fitted := Some p |}, Some v)).
Proof.
  intros Hsel Hk Hv Hfits.
  pose proof (@fits_before_firstn x y folds k Hsel Hfits) as Hbefore.
  split.
  - rewrite <- (firstn_skipn (S k) folds) at 1.
    rewrite (firstn_S_nth_error _ _ Hk), <- app_assoc. simpl.
    apply for_each_through; assumption.
  - rewrite (firstn_S_nth_error _ _ Hk).
    apply (@for_each_through x y (firstn k folds) [] fold v st); assumption.
Qed.

(** The selections of the five folds of a table of at least five rows. *)
Lemma kfold_selections (x : DataFrame) (y : list Z) (global : rng) :
  (5 <= nrows x)%nat -> length y = nrows x ->
  exists folds,
    fst (split kfold (nrows x) global) = Ok folds /\ length folds = 5%nat /\
    Forall (fun f => exists w, fold_selection x y f = Ok w) folds.
Proof.
  intros Hn Hy.
  destruct (split_kfold_Ok global Hn) as (folds & Hsplit & Hlen & Hin).
  exists folds. split; [assumption|]. split; [assumption|].
  eapply Forall_impl; [|exact Hin]. intros f [Ht Hv].
  apply fold_selection_Ok; assumption.
Qed.

(** The loop on a table of at least five rows: every fold's rows are
    selected, and the loop that gets as far as a fold goes on from that
    fold's fit alone. *)
Lemma kfold_loop_folds (x : DataFrame) (y : list Z) (global : rng) :
  (5 <= nrows x)%nat -> length y = nrows x ->
  exists folds,
    fst (split kfold (nrows x) global) = Ok folds /\ length folds = 5%nat /\
    forall k fold,
      nth_error folds k = Some fold ->
      exists v,
        fold_selection x y fold = Ok v /\
        (fits_before x y folds k ->
         kfold_loop x y global
         = rbind (gnb_fit (x_train v) (y_train v)) (fun p =>
           for_each (fold_body x y) (skipn (S k) folds)
                    ({| fitted := Some p |}, Some v))).
Proof.
  intros Hn Hy.
  destruct (@kfold_selections x y global Hn Hy) as (folds & Hsplit & Hlen & Hsel).
  exists folds. split; [assumption|]. split; [assumption|].
  intros k fold Hk.
  pose proof Hsel as Hsel'. rewrite Forall_forall in Hsel'.
  destruct (Hsel' fold (nth_error_In _ _ Hk)) as [v Hv].
  exists v. split; [assumption|]. intros Hfits.
  unfold kfold_loop. rewrite Hsplit. simpl.
  apply (@for_each_fold x y folds k fold v (GaussianNB, None) Hsel Hk Hv Hfits).
Qed.

(** C2.  [do_kfold_validation] on a table of at least five rows runs
    its loop over five folds and refits the one classifier in each.  As
    long as no fit before has raised, the iteration of a fold leaves
    the classifier with exactly the parameters [GaussianNB]'s fit
    computes from that fold's training rows, whatever the fits before
    computed: every fit overwrites the one before.  If that fit raises,
    its exception ends the run before anything is evaluated.  If the
    five fits succeed, the classifier and the train and validation sets
    handed to [evaluate_accuracy] for all scoring and prediction are
    those of the fifth fold alone. *)
Theorem do_kfold_validation_last_fit_wins (x : DataFrame) (y : list Z)
    (x_test : DataFrame) (y_test : list Z) (global : rng) :
  (5 <= nrows x)%nat -> length y = nrows x ->
  exists folds,
    fst (split kfold (nrows x) global) = Ok folds /\ length folds = 5%nat /\
    (forall k fold,
        nth_error folds k = Some fold ->
        exists v,
          fold_selection x y fold = Ok v /\
          (forall p,
              fits_before x y folds k ->
              gnb_fit (x_train v) (y_train v) = Ok p ->
              for_each (fold_body x y) (firstn (S k) folds) (GaussianNB, None)
              = Ok ({| fitted := Some p |}, Some v)) /\
          (forall e,
              fits_before x y folds k ->
              gnb_fit (x_train v) (y_train v) = Raise e ->
              do_kfold_validation x y x_test y_test global = raise e)) /\
    (exists last v,
        nth_error folds 4 = Some last /\
        fold_selection x y last = Ok v /\
        forall p,
          fits_before x y folds 4 ->
          gnb_fit (x_train v) (y_train v) = Ok p ->
          do_kfold_validation x y x_test y_test global
          = evaluate_accuracy {| fitted := Some p |}
                              (x_train v) (x_val v) x_test
                              (y_train v) (y_val v) y_test).
Proof.
  intros Hn Hy.
  destruct (@kfold_selections x y global Hn Hy) as (folds & Hsplit & Hlen & Hsel).
  exists folds. split; [assumption|]. split; [assumption|]. split.
  - intros k fold Hk.
    pose proof Hsel as Hsel'. rewrite Forall_forall in Hsel'.
    destruct (Hsel' fold (nth_error_In _ _ Hk)) as [v Hv].
    exists v. split; [assumption|]. split.
    + intros p Hfits Hp.
      destruct (@for_each_fold x y folds k fold v (GaussianNB, None) Hsel Hk Hv Hfits)
        as [_ Hloop].
      rewrite Hloop, Hp. reflexivity.
    + intros e Hfits He.
      destruct (@for_each_fold x y folds k fold v (GaussianNB, None) Hsel Hk Hv Hfits)
        as [Hloop _].
      unfold do_kfold_validation, kfold_loop, bind, lift.
      rewrite Hsplit. simpl. rewrite Hloop, He. reflexivity.
  - destruct (nth_error folds 4) as [last|] eqn:Hlast.
    + pose proof Hsel as Hsel'. rewrite Forall_forall in Hsel'.
      destruct (Hsel' last (nth_error_In _ _ Hlast)) as [v Hv].
      exists last, v. split; [reflexivity|]. split; [assumption|].
      intros p Hfits Hp.
      destruct (@for_each_fold x y folds 4 last v (GaussianNB, None)
                               Hsel Hlast Hv Hfits) as [Hloop _].
      rewrite (skipn_all2 folds) in Hloop by lia.
      unfold do_kfold_validation, kfold_loop, bind, lift.
      rewrite Hsplit. simpl. rewrite Hloop, Hp. reflexivity.
    + apply nth_error_None in Hlast. lia.
Qed.

(** C5.  For every evaluated set, the accuracy computed from the
    confusion counts as (tp + tn) / n is the accuracy [model.score]
    reports in [evaluate_accuracy]: both count the rows predicted with
    their true label, over the same predictions. *)
Theorem accuracy_from_counts_is_score (model : GaussianNB_model)
    (X : DataFrame) (y y_pred : list Z) (set_ : string)
    (out out' : console) (s : sen_spec) :
  predict model X = Ok y_pred ->
  evaluate_sen_spec y y_pred set_ out = (Ok s, out') ->
  tp s + tn s = matches y y_pred /\
  score model X y = Ok (true_divide (tp s + tn s) (Z.of_nat (length y))).
Proof.
  intros Hpred Hrun. apply evaluate_sen_spec_counts in Hrun.
  pose proof (counts_of_two_labels _ _ Hrun) as [_ Hm].
  apply confusion_counts_Ok in Hrun. destruct Hrun as [Hlen _].
  split; [lia|].
  unfold score. rewrite Hpred. simpl. unfold accuracy_score.
  apply Nat.eqb_eq in Hlen. rewrite Hlen.
  replace (tp s + tn s) with (matches y y_pred) by lia. reflexivity.
Qed.

End PipelineProperties.

(* ================================================================== *)
(** * Further properties: the outcomes of evaluate_sen_spec *)
(* ================================================================== *)

(** Number of entries of [l] equal to [v]. *)
Definition occurrences (v : Z) (l : list Z) : Z :=
  Z.of_nat (count_occ Z.eq_dec l v).

Lemma unpack4_long (values : list Z) :
  (4 < length values)%nat ->
  unpack4 values = Raise (ValueError (TooManyValuesToUnpack 4)).
Proof.
  destruct values as [|v0 [|v1 [|v2 [|v3 [|v4 rest]]]]]; simpl; intros;
    try lia; reflexivity.
Qed.

Lemma unpack4_few (values : list Z) :
  (length values < 4)%nat ->
  unpack4 values
  = Raise (ValueError (NotEnoughValuesToUnpack 4 (length values))).
Proof.
  destruct values as [|v0 [|v1 [|v2 [|v3 rest]]]]; simpl; intros;
    try lia; reflexivity.
Qed.

Lemma sorted_lt_NoDup (l : list Z) : StronglySorted Z.lt l -> NoDup l.
Proof.
  induction 1 as [|x l _ IH Hall]; constructor; [|assumption].
  intros Hin. rewrite Forall_forall in Hall. apply Hall in Hin. lia.
Qed.

(** X1.  What [evaluate_sen_spec] does, case by case.  The labels that
    line 128 builds the matrix over are the distinct values among the
    true and the predicted labels.  With vectors of different lengths
    the call raises; with fewer than two distinct labels the unpacking
    has too few values, with more than two it has too many; in these
    cases nothing is printed.  With exactly two it ends normally. *)
Theorem evaluate_sen_spec_outcomes (y_true y_pred : list Z) (set_ : string)
    (out : console) :
  NoDup (unique_labels y_true y_pred) /\
  (forall v, In v (unique_labels y_true y_pred) <-> In v y_true \/ In v y_pred) /\
  (length y_true <> length y_pred ->
   evaluate_sen_spec y_true y_pred set_ out
   = (Raise (ValueError (InconsistentNumbersOfSamples (length y_true)
                                                      (length y_pred))), out)) /\
  (length y_true = length y_pred ->
   (length (unique_labels y_true y_pred) < 2)%nat ->
   evaluate_sen_spec y_true y_pred set_ out
   = (Raise (ValueError (NotEnoughValuesToUnpack 4
        (length (unique_labels y_true y_pred)
         * length (unique_labels y_true y_pred)))), out)) /\
  (length y_true = length y_pred ->
   (2 < length (unique_labels y_true y_pred))%nat ->
   evaluate_sen_spec y_true y_pred set_ out
   = (Raise (ValueError (TooManyValuesToUnpack 4)), out)) /\
  (length y_true = length y_pred ->
   length (unique_labels y_true y_pred) = 2%nat ->
   exists s out', evaluate_sen_spec y_true y_pred set_ out = (Ok s, out')).
Proof.
  split; [apply sorted_lt_NoDup, np_unique_sorted|].
  split; [intros v; unfold unique_labels; rewrite In_np_unique; apply in_app_iff|].
  rewrite evaluate_sen_spec_run. unfold confusion_counts, confusion_matrix.
  pose proof (length_concat_table (cell_count y_true y_pred)
                (unique_labels y_true y_pred) (unique_labels y_true y_pred)) as Hk.
  repeat split.
  - intros Hne. apply Nat.eqb_neq in Hne. rewrite Hne. reflexivity.
  - intros Heq Hlt. apply Nat.eqb_eq in Heq. rewrite Heq. simpl. unfold ravel.
    rewrite unpack4_few; rewrite Hk; [reflexivity | nia].
  - intros Heq Hgt. apply Nat.eqb_eq in Heq. rewrite Heq. simpl. unfold ravel.
    rewrite unpack4_long; [reflexivity | rewrite Hk; nia].
  - intros Heq H2. apply Nat.eqb_eq in Heq. rewrite Heq. simpl.
    destruct (unique_labels y_true y_pred) as [|a [|b [|c rest]]];
      try discriminate H2.
    simpl. eauto.
Qed.

Lemma tally_nonneg (rows : list (Z * Z)) (t p : Z) : 0 <= tally rows t p.
Proof. unfold tally. lia. Qed.

(** The cells of one row of the matrix add up to the rows of that true
    label, and the cells of one column to the rows predicted so. *)
Lemma tally_margins (a b v : Z) (rows : list (Z * Z)) :
  a <> b ->
  Forall (fun r => In (fst r) [a; b] /\ In (snd r) [a; b]) rows ->
  tally rows v a + tally rows v b
  = Z.of_nat (length (filter (fun r => fst r =? v) rows)) /\
  tally rows a v + tally rows b v
  = Z.of_nat (length (filter (fun r => snd r =? v) rows)).
Proof.
  intros Hab. unfold tally.
  induction 1 as [|[t p] rows [Ht Hp] _ [IHt IHp]]; [split; reflexivity|].
  simpl in Ht, Hp. cbn [filter fst snd].
  destruct Ht as [<-|[<-|[]]], Hp as [<-|[<-|[]]];
    rewrite ?Z.eqb_refl;
    destruct (Z.eqb_spec a b); try contradiction;
    destruct (Z.eqb_spec b a); try congruence;
    destruct (Z.eqb_spec a v); destruct (Z.eqb_spec b v);
    try congruence; cbn [andb length]; lia.
Qed.

Lemma occurrences_combine (v : Z) (y_true y_pred : list Z) :
  length y_true = length y_pred ->
  Z.of_nat (length (filter (fun r => fst r =? v) (combine y_true y_pred)))
  = occurrences v y_true /\
  Z.of_nat (length (filter (fun r => snd r =? v) (combine y_true y_pred)))
  = occurrences v y_pred.
Proof.
  unfold occurrences. revert y_pred.
  induction y_true as [|t y_true IH]; intros [|p y_pred] Hlen;
    try discriminate; [split; reflexivity|].
  injection Hlen as Hlen. destruct (IH _ Hlen) as [IHt IHp].
  cbn [combine filter fst snd count_occ].
  destruct (Z.eqb_spec t v), (Z.eq_dec t v); try contradiction;
    destruct (Z.eqb_spec p v), (Z.eq_dec p v); try contradiction;
    cbn [length]; split; lia.
Qed.

Lemma occurrences_zero (v : Z) (l : list Z) : occurrences v l = 0 <-> ~ In v l.
Proof.
  unfold occurrences. rewrite (count_occ_not_In Z.eq_dec). lia.
Qed.

(** The margins of the four counts of line 128. *)
Lemma margins_of_counts (y_true y_pred : list Z) (tn fp fn tp : Z) :
  confusion_counts y_true y_pred = Ok (tn, fp, fn, tp) ->
  exists a b,
    a < b /\ unique_labels y_true y_pred = [a; b] /\
    0 <= tn /\ 0 <= fp /\ 0 <= fn /\ 0 <= tp /\
    tn + fp = occurrences a y_true /\
    fn + tp = occurrences b y_true /\
    tn + fn = occurrences a y_pred /\
    fp + tp = occurrences b y_pred.
Proof.
  intros Hcc. apply confusion_counts_Ok in Hcc.
  destruct Hcc as (Hlen & a & b & Hl & -> & -> & -> & ->).
  pose proof (two_labels_distinct _ Hl) as Hab.
  pose proof (rows_in_labels y_true y_pred) as Hrows. rewrite Hl in Hrows.
  assert (Hne : a <> b) by lia.
  destruct (tally_margins a Hne Hrows) as [Ha_true Ha_pred].
  destruct (tally_margins b Hne Hrows) as [Hb_true Hb_pred].
  destruct (occurrences_combine a _ _ Hlen) as [Ea_true Ea_pred].
  destruct (occurrences_combine b _ _ Hlen) as [Eb_true Eb_pred].
  exists a, b. rewrite !cell_count_tally.
  repeat split; try apply tally_nonneg; try assumption; lia.
Qed.

(** X2.  The margins of the confusion counts.  When [evaluate_sen_spec]
    ends normally, two labels a < b occur, no count is negative, and
    the denominators of the two ratios count the rows by true label:
    tn + fp rows are truly a, fn + tp rows are truly b; likewise
    tn + fn rows are predicted a and fp + tp rows are predicted b. *)
Theorem confusion_counts_margins (y_true y_pred : list Z) (set_ : string)
    (out out' : console) (s : sen_spec) :
  evaluate_sen_spec y_true y_pred set_ out = (Ok s, out') ->
  exists a b,
    a < b /\ unique_labels y_true y_pred = [a; b] /\
    0 <= tn s /\ 0 <= fp s /\ 0 <= fn s /\ 0 <= tp s /\
    tn s + fp s = occurrences a y_true /\
    fn s + tp s = occurrences b y_true /\
    tn s + fn s = occurrences a y_pred /\
    fp s + tp s = occurrences b y_pred.
Proof.
  intros Hrun. apply evaluate_sen_spec_counts in Hrun.
  apply margins_of_counts. exact Hrun.
Qed.

Lemma two_binary_labels (y_true y_pred : list Z) (a b : Z) :
  binary y_true -> binary y_pred ->
  unique_labels y_true y_pred = [a; b] -> a = 0 /\ b = 1.
Proof.
  intros Ht Hp Hl. rewrite (unique_labels_binary Ht Hp) in Hl.
  destruct (existsb (Z.eqb 0) (y_true ++ y_pred)),
           (existsb (Z.eqb 1) (y_true ++ y_pred));
    simpl in Hl; try discriminate Hl.
  injection Hl as <- <-. split; reflexivity.
Qed.

(** A count divided by a sum it is part of: the only warning is the
    one for 0 / 0, and then the quotient is NaN. *)
Lemma division_of_counts (a c : Z) :
  0 <= a -> 0 <= c ->
  division_warnings a (a + c)
  = (if a + c =? 0 then [Warned InvalidValue] else []) /\
  (a + c = 0 -> true_divide a (a + c) = nan).
Proof.
  intros Ha Hc. unfold division_warnings. split.
  - destruct (Z.eqb_spec (a + c) 0); [|reflexivity].
    replace a with 0 by lia. reflexivity.
  - intros H. replace a with 0 by lia. replace c with 0 by lia. reflexivity.
Qed.

(** X3.  The warnings of [evaluate_sen_spec] on 0/1 labels.  When it
    ends normally, what it adds to the console is numpy's warnings for
    the two divisions, then the two lines.  A division by zero of a
    non-zero count never happens, so every warning is the one for
    0 / 0; a warning is issued exactly when no row is truly 0 or no
    row is truly 1, and then the specificity, respectively the
    sensitivity, is NaN. *)
Theorem evaluate_sen_spec_warnings (y_true y_pred : list Z) (set_ : string)
    (out out' : console) (s : sen_spec) :
  binary y_true -> binary y_pred ->
  evaluate_sen_spec y_true y_pred set_ out = (Ok s, out') ->
  exists warnings,
    out' = out ++ warnings
               ++ sen_spec_lines set_ (specificity s) (sensitivity s) /\
    Forall (eq (Warned InvalidValue)) warnings /\
    (warnings <> [] <-> ~ In 0 y_true \/ ~ In 1 y_true) /\
    (~ In 0 y_true -> specificity s = nan) /\
    (~ In 1 y_true -> sensitivity s = nan).
Proof.
  intros Ht Hp Hrun.
  pose proof (evaluate_sen_spec_counts _ _ _ _ Hrun) as Hcc.
  destruct (margins_of_counts _ _ Hcc)
    as (a & b & _ & Hl & Htn & Hfp & Hfn & Htp & H0 & H1 & _).
  destruct (two_binary_labels Ht Hp Hl) as [-> ->].
  assert (Z0 : tn s + fp s = 0 <-> ~ In 0 y_true)
    by (rewrite H0; apply occurrences_zero).
  assert (Z1 : tp s + fn s = 0 <-> ~ In 1 y_true)
    by (rewrite Z.add_comm, H1; apply occurrences_zero).
  rewrite evaluate_sen_spec_run, Hcc in Hrun. injection Hrun as Hs Hout.
  assert (Hspec : specificity s = true_divide (tn s) (tn s + fp s))
    by (rewrite <- Hs at 1; reflexivity).
  assert (Hsens : sensitivity s = true_divide (tp s) (tp s + fn s))
    by (rewrite <- Hs at 1; reflexivity).
  destruct (division_of_counts Htn Hfp) as [W0 N0].
  destruct (division_of_counts Htp Hfn) as [W1 N1].
  exists (division_warnings (tn s) (tn s + fp s)
          ++ division_warnings (tp s) (tp s + fn s)).
  rewrite Hspec, Hsens, <- Hout, <- !app_assoc, W0, W1.
  split; [reflexivity|].
  split; [|split; [|split; [intros H; apply N0, Z0, H
                            | intros H; apply N1, Z1, H]]].
  - destruct (_ =? 0), (_ =? 0); repeat constructor.
  - rewrite <- Z0, <- Z1.
    destruct (Z.eqb_spec (tn s + fp s) 0), (Z.eqb_spec (tp s + fn s) 0);
      simpl; split; intros H; try discriminate; try tauto; try congruence.
Qed.

(* ================================================================== *)
(** * Further properties: split_dataframe *)
(* ================================================================== *)

(** The columns [split_dataframe] names. *)
Definition required_columns : list string :=
  ["dementia"; "pauses"; "retracing_reform"].

(** Every column of the table has one value per row. *)
Definition well_formed (df : DataFrame) : Prop :=
  Forall (fun c => length (snd c) = nrows df) (data df).

Lemma getitem_missing (df : DataFrame) (name : string) :
  has_column df name = false -> getitem df name = Raise (KeyError [ColumnKey name]).
Proof.
  unfold has_column, columns, getitem.
  induction (data df) as [|[n col] d IH]; simpl; [reflexivity|].
  destruct (String.eqb name n); simpl; [discriminate | exact IH].
Qed.

Lemma getitem_In (df : DataFrame) (name : string) (series : list cell) :
  getitem df name = Ok series -> In (name, series) (data df).
Proof.
  unfold getitem. destruct (find _ (data df)) as [[n col]|] eqn:Hfind;
    [|discriminate].
  apply find_some in Hfind. destruct Hfind as [Hin Heq].
  apply String.eqb_eq in Heq. simpl in *. subst n.
  intros H; injection H as <-. assumption.
Qed.

(** [drop] either succeeds, on a table that has all the names, or
    raises a [KeyError] for exactly the names the table lacks. *)
Lemma drop_outcome (df : DataFrame) (names : list string) :
  (Forall (fun n => has_column df n = true) names /\
   drop df names
   = Ok {| nrows := nrows df;
           data := filter (fun c => negb (existsb (String.eqb (fst c)) names))
                          (data df) |}) \/
  (exists missing,
      missing <> [] /\
      (forall n, In n missing <-> In n names /\ has_column df n = false) /\
      drop df names = Raise (KeyError (map ColumnKey missing))).
Proof.
  unfold drop.
  destruct (filter (fun n => negb (has_column df n)) names) as [|m ms] eqn:Hf.
  - left. split; [|reflexivity].
    apply Forall_forall. intros n Hn.
    destruct (has_column df n) eqn:Hc; [reflexivity|].
    assert (Hin : In n (filter (fun n => negb (has_column df n)) names))
      by (apply filter_In; rewrite Hc; auto).
    rewrite Hf in Hin. contradiction.
  - right. exists (m :: ms). split; [discriminate|]. split; [|reflexivity].
    intros n. rewrite <- Hf, filter_In, negb_true_iff. reflexivity.
Qed.

Lemma find_filter {A} (p keep : A -> bool) (l : list A) :
  (forall a, p a = true -> keep a = true) ->
  find p (filter keep l) = find p l.
Proof.
  intros Hkeep. induction l as [|a l IH]; simpl; [reflexivity|].
  destruct (keep a) eqn:Hk; simpl.
  - destruct (p a); [reflexivity | exact IH].
  - destruct (p a) eqn:Hp; [|exact IH].
    apply Hkeep in Hp. congruence.
Qed.

(** X4.  The schema [split_dataframe] needs.  It gets as far as its
    call of [do_kfold_validation] exactly when both tables have the
    columns 'dementia', 'pauses' and 'retracing_reform'.  Otherwise it
    raises a [KeyError], and nothing else: for 'dementia' when the
    label column is missing, else for the named columns that the table
    lacks; the train table is looked at first. *)
Theorem split_dataframe_schema (df df_test : DataFrame) :
  ((exists values, split_dataframe_values df df_test = Ok values) <->
   Forall (fun n => has_column df n = true) required_columns /\
   Forall (fun n => has_column df_test n = true) required_columns) /\
  (has_column df "dementia" = false ->
   split_dataframe_values df df_test = Raise (KeyError [ColumnKey "dementia"])) /\
  (forall e,
      split_dataframe_values df df_test = Raise e ->
      exists missing,
        e = KeyError (map ColumnKey missing) /\ missing <> [] /\
        Forall (fun n => In n required_columns /\
                         (has_column df n = false \/
                          has_column df_test n = false)) missing).
Proof.
  unfold split_dataframe_values. fold required_columns.
  destruct (has_column df "dementia") eqn:Hd.
  2:{ rewrite (getitem_missing _ _ Hd). simpl.
      split; [split|split; [reflexivity|]].
      - intros [v H]; discriminate.
      - intros [H _]. inversion H; congruence.
      - intros e H; injection H as <-. exists ["dementia"].
        split; [reflexivity|]. split; [discriminate|].
        constructor; [split; [simpl; auto | auto] | constructor]. }
  destruct (getitem_Ok _ _ Hd) as [series ->]. simpl.
  destruct (drop_outcome df required_columns)
    as [[Hall ->] | (missing & Hne & Hmiss & ->)]; simpl.
  2:{ split; [split|split].
      - intros [v H]; discriminate.
      - intros [H _]. destruct missing as [|m ms]; [congruence|].
        destruct (proj1 (Hmiss m) (or_introl eq_refl)) as [Hin Hc].
        rewrite Forall_forall in H. rewrite (H m Hin) in Hc. discriminate.
      - discriminate.
      - intros e H; injection H as <-. exists missing.
        split; [reflexivity|]. split; [assumption|]. apply Forall_forall.
        intros n Hn. apply Hmiss in Hn. tauto. }
  destruct (has_column df_test "dementia") eqn:Hd'.
  2:{ rewrite (getitem_missing _ _ Hd'). simpl.
      split; [split|split].
      - intros [v H]; discriminate.
      - intros [_ H]. inversion H; congruence.
      - discriminate.
      - intros e H; injection H as <-. exists ["dementia"].
        split; [reflexivity|]. split; [discriminate|].
        constructor; [split; [simpl; auto | auto] | constructor]. }
  destruct (getitem_Ok _ _ Hd') as [series' ->]. simpl.
  destruct (drop_outcome df_test required_columns)
    as [[Hall' ->] | (missing & Hne & Hmiss & ->)]; simpl.
  - split; [split; eauto|split; discriminate].
  - split; [split|split].
    + intros [v H]; discriminate.
    + intros [_ H]. destruct missing as [|m ms]; [congruence|].
      destruct (proj1 (Hmiss m) (or_introl eq_refl)) as [Hin Hc].
      rewrite Forall_forall in H. rewrite (H m Hin) in Hc. discriminate.
    + discriminate.
    + intros e H; injection H as <-. exists missing.
      split; [reflexivity|]. split; [assumption|]. apply Forall_forall.
      intros n Hn. apply Hmiss in Hn. tauto.
Qed.

(** [x] is [df] without the required columns: the same rows, the
    other columns and no more, each with the values it had, and one
    value per row if [df] had. *)
Definition features_of (df x : DataFrame) : Prop :=
  nrows x = nrows df /\
  (forall name,
      has_column x name = true <->
      has_column df name = true /\ ~ In name required_columns) /\
  (forall name, ~ In name required_columns -> getitem x name = getitem df name) /\
  (well_formed df -> well_formed x).

(** [y] is a vector of 0s and 1s, one per row of [df] if the columns
    of [df] have one value per row. *)
Definition labels_of (df : DataFrame) (y : list Z) : Prop :=
  binary y /\ (well_formed df -> length y = nrows df).

Lemma drop_features (df x : DataFrame) :
  drop df required_columns = Ok x -> features_of df x.
Proof.
  intros Hdrop.
  destruct (drop_outcome df required_columns)
    as [[_ Hok] | (missing & _ & _ & Hraise)]; [|congruence].
  rewrite Hok in Hdrop. injection Hdrop as <-.
  split; [reflexivity|]. split; [|split].
  - intros name. rewrite !has_column_In. unfold columns at 1; simpl.
    rewrite (columns_filter
               (fun c => negb (existsb (String.eqb c) required_columns))).
    rewrite filter_In, negb_true_iff. fold (columns df).
    rewrite <- (existsb_eqb_string name required_columns).
    destruct (existsb (String.eqb name) required_columns);
      intuition congruence.
  - intros name Hname. unfold getitem; simpl.
    rewrite find_filter; [reflexivity|].
    intros [n col] Heq. apply String.eqb_eq in Heq. simpl in Heq. subst n.
    change (negb (existsb (String.eqb name) required_columns) = true).
    destruct (existsb (String.eqb name) required_columns) eqn:E;
      [|reflexivity].
    apply existsb_eqb_string in E. contradiction.
  - unfold well_formed; simpl. intros Hwf.
    apply Forall_forall. intros c Hc. apply filter_In in Hc.
    rewrite Forall_forall in Hwf. apply Hwf, Hc.
Qed.

Lemma label_of_binary (series : list cell) : binary (apply label_of series).
Proof.
  induction series as [|c series IH]; simpl; constructor; [|exact IH].
  destruct c as [s| |]; simpl; auto. destruct (String.eqb s "Y"); auto.
Qed.

Lemma getitem_labels (df : DataFrame) (series : list cell) :
  getitem df "dementia" = Ok series -> labels_of df (apply label_of series).
Proof.
  intros Hget. split; [apply label_of_binary|].
  intros Hwf. unfold apply. rewrite length_map.
  apply getitem_In in Hget. unfold well_formed in Hwf.
  rewrite Forall_forall in Hwf. apply (Hwf _ Hget).
Qed.

(** X5.  What [split_dataframe] hands on.  Each feature table is its
    source table without 'dementia', 'pauses' and 'retracing_reform':
    the label column never stays among the features, every other
    column is kept with its values, and the rows are the same.  Each
    label vector holds only 0s and 1s, one per row of a table whose
    columns have one value per row. *)
Theorem split_dataframe_features_and_labels (df df_test x x_test : DataFrame)
    (y y_test : list Z) :
  split_dataframe_values df df_test = Ok (x, y, x_test, y_test) ->
  features_of df x /\ labels_of df y /\
  features_of df_test x_test /\ labels_of df_test y_test.
Proof.
  unfold split_dataframe_values. fold required_columns.
  destruct (getitem df "dementia") as [series|] eqn:Hs; [simpl|discriminate].
  destruct (drop df _) as [x0|] eqn:Hx; [simpl|discriminate].
  destruct (getitem df_test "dementia") as [series'|] eqn:Hs';
    [simpl|discriminate].
  destruct (drop df_test _) as [x1|] eqn:Hx'; [simpl|discriminate].
  intros H; injection H as <- <- <- <-.
  split; [apply drop_features, Hx|].
  split; [apply getitem_labels, Hs|].
  split; [apply drop_features, Hx' | apply getitem_labels, Hs'].
Qed.

(* ================================================================== *)
(** * Further properties: the folds *)
(* ================================================================== *)

Lemma firstn_plus {A} (a b : nat) (l : list A) :
  firstn (a + b) l = firstn a l ++ firstn b (skipn a l).
Proof.
  revert l. induction a as [|a IH]; intros l; [reflexivity|].
  destruct l as [|x l]; simpl; [now rewrite firstn_nil | now rewrite IH].
Qed.

(** The slices, put end to end, are the indices they were cut from. *)
Lemma iter_test_indices_concat (sizes : list nat) (indices : list nat) :
  concat (iter_test_indices indices sizes) = firstn (list_sum sizes) indices.
Proof.
  revert indices. induction sizes as [|size rest IH]; intros indices; simpl;
    [reflexivity|].
  rewrite IH, firstn_plus. reflexivity.
Qed.

Lemma iter_test_indices_lengths (sizes : list nat) (indices : list nat) :
  (list_sum sizes <= length indices)%nat ->
  map (@length nat) (iter_test_indices indices sizes) = sizes.
Proof.
  revert indices. induction sizes as [|size rest IH]; intros indices Hsum;
    simpl in *; [reflexivity|].
  rewrite length_firstn, IH by (rewrite length_skipn; lia).
  f_equal. lia.
Qed.

Lemma iter_test_indices_slices (sizes : list nat) (indices : list nat) :
  NoDup indices ->
  Forall (fun t => NoDup t /\ incl t indices) (iter_test_indices indices sizes).
Proof.
  revert indices. induction sizes as [|size rest IH]; intros indices Hnd;
    simpl; constructor.
  - pose proof (firstn_skipn size indices) as Hcut. split.
    + rewrite <- Hcut in Hnd. eapply NoDup_app_remove_r, Hnd.
    + intros i Hi. rewrite <- Hcut. apply in_or_app. now left.
  - pose proof (firstn_skipn size indices) as Hcut.
    assert (Hskip : NoDup (skipn size indices))
      by (rewrite <- Hcut in Hnd; eapply NoDup_app_remove_l, Hnd).
    eapply Forall_impl; [|apply (IH _ Hskip)].
    intros t [Ht Hincl]. split; [assumption|].
    intros i Hi. rewrite <- Hcut. apply in_or_app. right. apply Hincl, Hi.
Qed.

Lemma sum_of_sizes (q r m : nat) :
  list_sum (map (fun i => (q + (if i <? r then 1 else 0))%nat) (seq 0 m))
  = (m * q + Nat.min r m)%nat.
Proof.
  induction m as [|m IH]; [simpl; lia|].
  rewrite seq_S, map_app, list_sum_app, IH. simpl.
  destruct (Nat.ltb_spec m r); lia.
Qed.

(** The sizes of the folds add up to the number of rows. *)
Lemma fold_sizes_sum (k n : nat) : k <> 0%nat -> list_sum (fold_sizes k n) = n.
Proof.
  intros Hk. unfold fold_sizes. rewrite sum_of_sizes.
  pose proof (Nat.div_mod_eq n k). pose proof (Nat.mod_upper_bound n k Hk). lia.
Qed.

Lemma fold_sizes_range (k n size : nat) :
  In size (fold_sizes k n) -> (n / k <= size <= n / k + 1)%nat.
Proof.
  unfold fold_sizes. rewrite in_map_iff. intros (i & <- & _).
  destruct (i <? n mod k)%nat; lia.
Qed.

(** The rows a mask selects are the rows of the slice it was made of. *)
Lemma mask_selects (n : nat) (test : list nat) :
  NoDup test -> Forall (fun i => (i < n)%nat) test ->
  Permutation (snd (train_test n test)) test.
Proof.
  intros Hnd Hlt. unfold train_test; simpl.
  apply NoDup_Permutation; [apply NoDup_filter, seq_NoDup | assumption |].
  intros i. rewrite filter_In, in_seq, existsb_exists. split.
  - intros (_ & j & Hj & Heq). apply Nat.eqb_eq in Heq. now subst.
  - intros Hi. rewrite Forall_forall in Hlt. split; [apply Hlt in Hi; lia|].
    exists i. split; [assumption | apply Nat.eqb_refl].
Qed.

(** The two halves of a fold: no row twice, no row in both, every row
    of the table in one of them. *)
Lemma train_test_complement (n : nat) (test : list nat) :
  NoDup (fst (train_test n test)) /\ NoDup (snd (train_test n test)) /\
  (length (fst (train_test n test)) + length (snd (train_test n test)) = n)%nat /\
  forall i,
    ((i < n)%nat <-> In i (fst (train_test n test)) \/ In i (snd (train_test n test)))
    /\ ~ (In i (fst (train_test n test)) /\ In i (snd (train_test n test))).
Proof.
  unfold train_test; simpl.
  split; [apply NoDup_filter, seq_NoDup|].
  split; [apply NoDup_filter, seq_NoDup|].
  split.
  - rewrite Nat.add_comm.
    rewrite (filter_length (fun i => existsb (Nat.eqb i) test)). apply length_seq.
  - intros i. rewrite !filter_In, in_seq.
    destruct (existsb (Nat.eqb i) test); simpl; split;
      intuition (try lia; try discriminate).
Qed.

(** What lines 68-69 select has the shape of the index lists: as many
    rows, and the columns of the table. *)
Lemma fold_selection_shape (x : DataFrame) (y : list Z)
    (fold : list nat * list nat) (v : fold_vars) :
  fold_selection x y fold = Ok v ->
  nrows (x_train v) = length (fst fold) /\
  length (y_train v) = length (fst fold) /\
  nrows (x_val v) = length (snd fold) /\
  length (y_val v) = length (snd fold) /\
  columns (x_train v) = columns x /\ columns (x_val v) = columns x.
Proof.
  destruct fold as [train_index val_index].
  unfold fold_selection, loc, loc_series.
  destruct (filter _ train_index); [simpl|discriminate].
  destruct (filter _ val_index); [simpl|discriminate].
  destruct (filter _ train_index); [simpl|discriminate].
  destruct (filter _ val_index); [simpl|discriminate].
  intros Hv. injection Hv as Hv. subst v. simpl. unfold columns; simpl.
  rewrite !length_map, !map_map. simpl. repeat split.
Qed.

Section FoldProperties.

Context {G : Generator} {E : Estimator}.

Lemma split_kfold_inv (n : nat) (global : rng)
    (folds : list (list nat * list nat)) :
  fst (split kfold n global) = Ok folds ->
  (5 <= n)%nat /\
  folds = map (train_test n)
              (iter_test_indices (fst (rng_shuffle (RandomState 9) (seq 0 n)))
                                 (fold_sizes 5 n)).
Proof.
  unfold split, shuffled_indices, kfold; simpl.
  destruct (Nat.ltb_spec n 5) as [Hlt|Hge]; [discriminate|].
  destruct (rng_shuffle (RandomState 9) (seq 0 n)) as [shuffled after]; simpl.
  intros Hfolds; injection Hfolds as <-. split; [assumption | reflexivity].
Qed.

(** X6.  The folds of [do_kfold_validation], whatever the generator
    draws.  When the split succeeds there are five folds, and in each
    the training and the validation indices share no row, repeat no
    row, and together are exactly the rows of the table. *)
Theorem kfold_folds_are_complementary (x : DataFrame) (global : rng)
    (folds : list (list nat * list nat)) :
  fst (split kfold (nrows x) global) = Ok folds ->
  length folds = 5%nat /\
  Forall (fun fold =>
            NoDup (fst fold) /\ NoDup (snd fold) /\
            (length (fst fold) + length (snd fold) = nrows x)%nat /\
            forall i,
              ((i < nrows x)%nat <-> In i (fst fold) \/ In i (snd fold)) /\
              ~ (In i (fst fold) /\ In i (snd fold)))
         folds.
Proof.
  intros Hsplit. apply split_kfold_inv in Hsplit. destruct Hsplit as [_ ->].
  split; [reflexivity|].
  apply Forall_forall. intros fold Hfold. apply in_map_iff in Hfold.
  destruct Hfold as (test & <- & _). apply train_test_complement.
Qed.

(** [do_kfold_validation] on a table too small for five folds: the
    split raises before any row is selected. *)
Lemma kfold_loop_small (x : DataFrame) (y : list Z) (global : rng) :
  (nrows x < 5)%nat ->
  kfold_loop x y global = Raise (ValueError (TooManySplits 5 (nrows x))).
Proof.
  intros Hn. unfold kfold_loop, split, kfold; simpl.
  apply Nat.ltb_lt in Hn. rewrite Hn. reflexivity.
Qed.

(** X7.  A train table of fewer than five rows (an empty one too)
    ends [do_kfold_validation] in the [ValueError] of the split: the
    classifier is never fitted and nothing is printed. *)
Theorem do_kfold_validation_small_table (x : DataFrame) (y : list Z)
    (x_test : DataFrame) (y_test : list Z) (global : rng) (out : console) :
  (nrows x < 5)%nat ->
  do_kfold_validation x y x_test y_test global out
  = (Raise (ValueError (TooManySplits 5 (nrows x))), out).
Proof.
  intros Hn. unfold do_kfold_validation, bind, lift.
  rewrite (kfold_loop_small _ _ _ Hn). reflexivity.
Qed.

End FoldProperties.

Lemma concat_map_Permutation {A} (g : list A -> list A) (ts : list (list A)) :
  Forall (fun t => Permutation (g t) t) ts ->
  Permutation (concat (map g ts)) (concat ts).
Proof.
  induction 1 as [|t ts Ht _ IH]; simpl; [constructor|].
  apply Permutation_app; assumption.
Qed.

Section ShuffledFolds.

Context {G : Generator} {E : Estimator}.

(** What numpy promises of [shuffle]: the result is a rearrangement of
    the list. *)
Hypothesis shuffle_permutes :
  forall (g : rng) (l : list nat), Permutation (fst (rng_shuffle g l)) l.

Lemma shuffled_slices (n : nat) :
  let tests := iter_test_indices (fst (rng_shuffle (RandomState 9) (seq 0 n)))
                                 (fold_sizes 5 n) in
  concat tests = fst (rng_shuffle (RandomState 9) (seq 0 n)) /\
  map (@length nat) tests = fold_sizes 5 n /\
  Forall (fun t => Permutation (snd (train_test n t)) t) tests.
Proof.
  pose proof (shuffle_permutes (RandomState 9) (seq 0 n)) as Hperm.
  set (shuffled := fst (rng_shuffle (RandomState 9) (seq 0 n))) in *.
  assert (Hlen : length shuffled = n)
    by (rewrite (Permutation_length Hperm); apply length_seq).
  assert (Hnd : NoDup shuffled)
    by (eapply Permutation_NoDup; [symmetry; exact Hperm | apply seq_NoDup]).
  assert (Hsum : list_sum (fold_sizes 5 n) = n) by (apply fold_sizes_sum; lia).
  cbv zeta. split; [|split].
  - rewrite iter_test_indices_concat, Hsum. apply firstn_all2. lia.
  - apply iter_test_indices_lengths. lia.
  - eapply Forall_impl; [|apply (iter_test_indices_slices _ Hnd)].
    intros t [Ht Hincl]. apply mask_selects; [assumption|].
    apply Forall_forall. intros i Hi. apply Hincl in Hi.
    apply (Permutation_in _ Hperm), in_seq in Hi. lia.
Qed.

(** The validation groups have the sizes of the folds. *)
Lemma validation_sizes (n : nat) (global : rng)
    (folds : list (list nat * list nat)) :
  fst (split kfold n global) = Ok folds ->
  map (fun fold => length (snd fold)) folds = fold_sizes 5 n.
Proof.
  intros Hsplit. apply split_kfold_inv in Hsplit. destruct Hsplit as [_ ->].
  destruct (shuffled_slices n) as (_ & Hsizes & Hmask).
  rewrite map_map. etransitivity; [|exact Hsizes].
  apply map_ext_in. intros t Ht.
  rewrite Forall_forall in Hmask. apply Permutation_length, Hmask, Ht.
Qed.

(** X8.  The validation groups of [do_kfold_validation] under a
    generator whose shuffle rearranges: put together, the five groups
    are the rows of the table, each row once, so every row is
    validated on in exactly one fold; the groups have the sizes
    scikit-learn announces, each n / 5 or one more. *)
Theorem validation_folds_partition (x : DataFrame) (global : rng)
    (folds : list (list nat * list nat)) :
  fst (split kfold (nrows x) global) = Ok folds ->
  Permutation (concat (map snd folds)) (seq 0 (nrows x)) /\
  map (fun fold => length (snd fold)) folds = fold_sizes 5 (nrows x) /\
  Forall (fun fold => (nrows x / 5 <= length (snd fold) <= nrows x / 5 + 1)%nat)
         folds.
Proof.
  intros Hsplit. pose proof (validation_sizes _ _ Hsplit) as Hlens.
  apply split_kfold_inv in Hsplit. destruct Hsplit as [_ ->].
  destruct (shuffled_slices (nrows x)) as (Hcat & _ & Hmask).
  split; [|split].
  - rewrite map_map.
    rewrite (concat_map_Permutation (fun t => snd (train_test (nrows x) t)) Hmask).
    rewrite Hcat. apply shuffle_permutes.
  - exact Hlens.
  - apply Forall_forall. intros fold Hfold.
    apply (fold_sizes_range 5 (nrows x)). rewrite <- Hlens.
    apply in_map_iff. exists fold. split; [reflexivity | assumption].
Qed.

(** X9.  The sets [do_kfold_validation] reports on, for a table of n
    rows (at least five, one label each).  The fifth fold the split
    yields has n / 5 validation rows (rounded down), and its training
    rows are the other n - n / 5 rows of the table; the loop variables
    selected with it hold that many rows, features and labels alike,
    and the feature tables have the columns of the table.  If none of
    the five fits raises, [evaluate_accuracy] is called with these very
    sets and with the parameters fitted on this fold's training set. *)
Theorem do_kfold_validation_reported_sets (x : DataFrame) (y : list Z)
    (x_test : DataFrame) (y_test : list Z) (global : rng) :
  (5 <= nrows x)%nat -> length y = nrows x ->
  exists folds last v,
    fst (split kfold (nrows x) global) = Ok folds /\
    nth_error folds 4 = Some last /\
    fold_selection x y last = Ok v /\
    length (snd last) = (nrows x / 5)%nat /\
    length (fst last) = (nrows x - nrows x / 5)%nat /\
    (forall i, (i < nrows x)%nat -> (In i (fst last) <-> ~ In i (snd last))) /\
    nrows (x_val v) = (nrows x / 5)%nat /\
    length (y_val v) = (nrows x / 5)%nat /\
    nrows (x_train v) = (nrows x - nrows x / 5)%nat /\
    length (y_train v) = (nrows x - nrows x / 5)%nat /\
    columns (x_train v) = columns x /\ columns (x_val v) = columns x /\
    (forall p,
        fits_before x y folds 4 ->
        gnb_fit (x_train v) (y_train v) = Ok p ->
        do_kfold_validation x y x_test y_test global
        = evaluate_accuracy {| fitted := Some p |}
                            (x_train v) (x_val v) x_test
                            (y_train v) (y_val v) y_test).
Proof.
  intros Hn Hy.
  destruct (@kfold_loop_folds _ _ x y global Hn Hy)
    as (folds & Hsplit & Hlen & Hfolds).
  destruct (nth_error folds 4) as [last|] eqn:Hlast;
    [|apply nth_error_None in Hlast; lia].
  destruct (Hfolds 4%nat last Hlast) as (v & Hv & Hloop).
  pose proof (fold_selection_shape _ _ _ Hv)
    as (Hxt & Hyt & Hxv & Hyv & Hct & Hcv).
  pose proof (validation_sizes _ _ Hsplit) as Hsizes.
  assert (Hval : length (snd last) = (nrows x / 5)%nat).
  { pose proof (map_nth_error (fun fold => length (snd fold)) 4 folds Hlast)
      as Hnth.
    rewrite Hsizes in Hnth. unfold fold_sizes in Hnth.
    cbn [seq map nth_error] in Hnth.
    pose proof (Nat.mod_upper_bound (nrows x) 5 ltac:(lia)) as Hmod.
    assert (Hlt : (4 <? nrows x mod 5)%nat = false)
      by (apply Nat.ltb_ge; lia).
    rewrite Hlt in Hnth. injection Hnth as Hnth.
    change (fst (Nat.divmod (nrows x) 4 0 4)) with (nrows x / 5)%nat in Hnth.
    lia. }
  assert (Hcompl : (length (fst last) + length (snd last) = nrows x)%nat /\
                   forall i,
                     ((i < nrows x)%nat <-> In i (fst last) \/ In i (snd last)) /\
                     ~ (In i (fst last) /\ In i (snd last))).
  { pose proof Hsplit as Hinv.
    apply split_kfold_inv in Hinv. destruct Hinv as [_ Hinv].
    pose proof (nth_error_In _ _ Hlast) as Hmem.
    rewrite Hinv in Hmem. apply in_map_iff in Hmem.
    destruct Hmem as (test & <- & _).
    destruct (train_test_complement (nrows x) test) as (_ & _ & Hsum & Hrows).
    split; assumption. }
  destruct Hcompl as [Htrain Hrows].
  exists folds, last, v.
  split; [assumption|]. split; [exact Hlast|]. split; [assumption|].
  split; [assumption|]. split; [lia|]. split.
  { intros i Hi. destruct (Hrows i) as [Hall Hnot]. split.
    - intros Hin Hin'. apply Hnot. split; assumption.
    - intros Hnin. apply Hall in Hi. destruct Hi as [Hin|Hin];
        [assumption | contradiction]. }
  split; [lia|]. split; [lia|]. split; [lia|]. split; [lia|].
  split; [assumption|]. split; [assumption|].
  intros p Hfits Hp. specialize (Hloop Hfits).
  rewrite (skipn_all2 folds) in Hloop by lia. rewrite Hp in Hloop.
  unfold do_kfold_validation, bind, lift. rewrite Hloop. reflexivity.
Qed.

End ShuffledFolds.

(* ================================================================== *)
(** * Further properties: the script from read_csv on *)
(* ================================================================== *)

Lemma split_dataframe_values_inv (df df_test x x_test : DataFrame)
    (y y_test : list Z) :
  split_dataframe_values df df_test = Ok (x, y, x_test, y_test) ->
  Forall (fun n => has_column df n = true) required_columns /\
  Forall (fun n => has_column df_test n = true) required_columns /\
  features_of df x /\ labels_of df y.
Proof.
  unfold split_dataframe_values. fold required_columns.
  destruct (getitem df "dementia") as [series|] eqn:Hs; [simpl|discriminate].
  destruct (drop_outcome df required_columns)
    as [[Hall Hx] | (missing & _ & _ & Hx)]; rewrite Hx; [simpl|discriminate].
  destruct (getitem df_test "dementia") as [series'|] eqn:Hs';
    [simpl|discriminate].
  destruct (drop_outcome df_test required_columns)
    as [[Hall' Hx'] | (missing & _ & _ & Hx')]; rewrite Hx'; [simpl|discriminate].
  intros Hv; injection Hv as <- <- <- <-.
  split; [assumption|]. split; [assumption|].
  split; [apply drop_features, Hx | apply getitem_labels, Hs].
Qed.

Lemma split_dataframe_values_Ok (df df_test : DataFrame) :
  Forall (fun n => has_column df n = true) required_columns ->
  Forall (fun n => has_column df_test n = true) required_columns ->
  exists x y x_test y_test,
    split_dataframe_values df df_test = Ok (x, y, x_test, y_test).
Proof.
  intros Hall Hall'. unfold split_dataframe_values. fold required_columns.
  destruct (getitem_Ok df "dementia") as [series ->];
    [inversion Hall; assumption|].
  destruct (getitem_Ok df_test "dementia") as [series' ->];
    [inversion Hall'; assumption|].
  simpl.
  destruct (drop_outcome df required_columns)
    as [[_ ->] | (missing & Hne & Hmiss & _)].
  2:{ destruct missing as [|m ms]; [congruence|].
      destruct (proj1 (Hmiss m) (or_introl eq_refl)) as [Hin Hc].
      rewrite Forall_forall in Hall. rewrite (Hall m Hin) in Hc. discriminate. }
  destruct (drop_outcome df_test required_columns)
    as [[_ ->] | (missing & Hne & Hmiss & _)].
  2:{ destruct missing as [|m ms]; [congruence|].
      destruct (proj1 (Hmiss m) (or_introl eq_refl)) as [Hin Hc].
      rewrite Forall_forall in Hall'. rewrite (Hall' m Hin) in Hc.
      discriminate. }
  simpl. eauto.
Qed.

Section ScriptProperties.

Context {G : Generator} {E : Estimator}.

(** X10.  The script up to its evaluation.  When both files exist,
    both tables have the required columns, and the train table has at
    least five rows with one value per row in each column, [read_csv]
    raises nothing of its own on its way: the features and labels are
    separated, the split yields its folds and every fold's rows are
    selected.  Only a fit can end the run there: the first fit that
    raises ends it with that exception and nothing printed.  If the
    five fits succeed, the run is [evaluate_accuracy] on the separated
    test set, with the sets of the fifth fold and the parameters fitted
    on its training set. *)
Theorem read_csv_reaches_evaluation (files : string -> option DataFrame)
    (global : rng) (df df_test : DataFrame) :
  files "train_set" = Some df -> files "test_set" = Some df_test ->
  Forall (fun n => has_column df n = true) required_columns ->
  Forall (fun n => has_column df_test n = true) required_columns ->
  well_formed df -> (5 <= nrows df)%nat ->
  exists x y x_test y_test folds,
    split_dataframe_values df df_test = Ok (x, y, x_test, y_test) /\
    fst (split kfold (nrows x) global) = Ok folds /\
    (forall k fold,
        nth_error folds k = Some fold ->
        exists v,
          fold_selection x y fold = Ok v /\
          forall e,
            fits_before x y folds k ->
            gnb_fit (x_train v) (y_train v) = Raise e ->
            read_csv files global = raise e) /\
    (exists last v,
        nth_error folds 4 = Some last /\
        fold_selection x y last = Ok v /\
        forall p,
          fits_before x y folds 4 ->
          gnb_fit (x_train v) (y_train v) = Ok p ->
          read_csv files global
          = evaluate_accuracy {| fitted := Some p |}
                              (x_train v) (x_val v) x_test
                              (y_train v) (y_val v) y_test).
Proof.
  intros Htrain Htest Hall Hall' Hwf Hn.
  destruct (split_dataframe_values_Ok _ _ Hall Hall')
    as (x & y & x_test & y_test & Hv).
  pose proof Hv as Hinv. apply split_dataframe_values_inv in Hinv.
  destruct Hinv as (_ & _ & (Hrows & _) & (_ & Hy)).
  specialize (Hy Hwf). rewrite <- Hrows in Hn, Hy.
  destruct (@kfold_loop_folds _ _ x y global Hn Hy)
    as (folds & Hsplit & Hlen & Hfolds).
  assert (Hrun : read_csv files global
                 = do_kfold_validation x y x_test y_test global).
  { unfold read_csv. rewrite Htrain, Htest.
    unfold split_dataframe, bind, lift. rewrite Hv. reflexivity. }
  exists x, y, x_test, y_test, folds.
  split; [assumption|]. split; [assumption|]. split.
  - intros k fold Hk. destruct (Hfolds k fold Hk) as (v & Hsel & Hloop).
    exists v. split; [assumption|]. intros e Hfits He.
    rewrite Hrun. unfold do_kfold_validation, bind, lift.
    rewrite (Hloop Hfits), He. reflexivity.
  - destruct (nth_error folds 4) as [last|] eqn:Hlast;
      [|apply nth_error_None in Hlast; lia].
    destruct (Hfolds 4%nat last Hlast) as (v & Hsel & Hloop).
    exists last, v. split; [reflexivity|]. split; [assumption|].
    intros p Hfits Hp. specialize (Hloop Hfits).
    rewrite (skipn_all2 folds) in Hloop by lia. rewrite Hp in Hloop.
    rewrite Hrun. unfold do_kfold_validation, bind, lift.
    rewrite Hloop. reflexivity.
Qed.

(** X11.  Nothing is printed on bad input.  If a run of [read_csv]
    adds anything to the console, then both files exist, both tables
    have the required columns and the train table has at least five
    rows: a missing file, a missing column or too small a table ends
    the script before its first line of output. *)
Theorem read_csv_output_needs_valid_input (files : string -> option DataFrame)
    (global : rng) (out out' : console) (r : result unit) :
  read_csv files global out = (r, out') -> out' <> out ->
  exists df df_test,
    files "train_set" = Some df /\ files "test_set" = Some df_test /\
    Forall (fun n => has_column df n = true) required_columns /\
    Forall (fun n => has_column df_test n = true) required_columns /\
    (5 <= nrows df)%nat.
Proof.
  unfold read_csv.
  destruct (files "train_set") as [df|];
    [|intros Hrun; injection Hrun as _ <-; congruence].
  destruct (files "test_set") as [df_test|];
    [|intros Hrun; injection Hrun as _ <-; congruence].
  unfold split_dataframe, bind, lift.
  destruct (split_dataframe_values df df_test) as [[[[x y] x_test] y_test]|e]
    eqn:Hv; [|intros Hrun; injection Hrun as _ <-; congruence].
  apply split_dataframe_values_inv in Hv.
  destruct Hv as (Hall & Hall' & (Hrows & _) & _).
  destruct (Nat.lt_ge_cases (nrows x) 5) as [Hsmall|Hbig].
  - unfold do_kfold_validation, bind, lift.
    rewrite (kfold_loop_small _ y global Hsmall).
    intros Hrun; injection Hrun as _ <-; congruence.
  - intros _ _. exists df, df_test. rewrite <- Hrows. auto.
Qed.

End ScriptProperties.

(* ================================================================== *)
(** * Further properties: evaluate_accuracy *)
(* ================================================================== *)

(** The line [evaluate_accuracy] prints for one set: the share of rows
    predicted with their true label, times 100. *)
Definition accuracy_line (caption : string) (y_true y_pred : list Z) : event :=
  Printed "{0:<35s} {1:6.3f}%" caption
          (PrimFloat.mul (true_divide (matches y_true y_pred)
                                      (Z.of_nat (length y_true)))
                         hundred).

(** One call of [evaluate_sen_spec] on vectors of equal length only
    adds to the console, and ends normally exactly when two labels
    occur. *)
Lemma evaluate_sen_spec_appends (y_true y_pred : list Z) (set_ : string)
    (out : console) :
  length y_true = length y_pred ->
  exists added r,
    evaluate_sen_spec y_true y_pred set_ out = (r, out ++ added) /\
    ((exists s, r = Ok s) <-> length (unique_labels y_true y_pred) = 2%nat).
Proof.
  intros Hlen. rewrite evaluate_sen_spec_run.
  destruct (confusion_counts y_true y_pred) as [[[[tn fp] fn] tp]|e] eqn:Hcc.
  - eexists _, _. split; [reflexivity|]. split; [|eauto].
    intros _. apply confusion_counts_Ok in Hcc.
    destruct Hcc as (_ & a & b & -> & _). reflexivity.
  - exists [], (Raise e). rewrite app_nil_r. split; [reflexivity|].
    split; [intros [s Hs]; discriminate|].
    intros H2. exfalso.
    destruct (unique_labels y_true y_pred) as [|a [|b [|c rest]]] eqn:Hl;
      try discriminate H2.
    assert (Hok : confusion_counts y_true y_pred
                  = Ok (cell_count y_true y_pred a a, cell_count y_true y_pred a b,
                        cell_count y_true y_pred b a, cell_count y_true y_pred b b)).
    { apply confusion_counts_Ok. split; [assumption|]. exists a, b. auto. }
    congruence.
Qed.

Section EvaluationProperties.

Context {E : Estimator}.

(** X12.  The report of [evaluate_accuracy], for a fitted classifier
    whose predictions for the three sets succeed, with one label per
    row of each set.  The three accuracy lines (train, validation,
    test) are printed first, whatever happens afterwards; and the call
    ends normally exactly when, in each of the three sets, two labels
    occur among the true and the predicted labels. *)
Theorem evaluate_accuracy_report (p : params)
    (x_train x_val x_test : DataFrame) (y_train y_val y_test : list Z)
    (pred_train pred_val pred_test : list Z) (out : console) :
  gnb_predict p x_train = Ok pred_train ->
  gnb_predict p x_val = Ok pred_val ->
  gnb_predict p x_test = Ok pred_test ->
  length pred_train = length y_train ->
  length pred_val = length y_val ->
  length pred_test = length y_test ->
  exists r rest,
    evaluate_accuracy {| fitted := Some p |} x_train x_val x_test
                      y_train y_val y_test out
    = (r, out ++ [accuracy_line "Accuracy on train set:" y_train pred_train;
                  accuracy_line "Accuracy on validation set:" y_val pred_val;
                  accuracy_line "Accuracy on test set:" y_test pred_test]
           ++ rest) /\
    (r = Ok tt <->
     length (unique_labels y_train pred_train) = 2%nat /\
     length (unique_labels y_val pred_val) = 2%nat /\
     length (unique_labels y_test pred_test) = 2%nat).
Proof.
  intros Ptrain Pval Ptest Htrain Hval Htest.
  unfold evaluate_accuracy, score, predict. cbn [fitted].
  rewrite Ptrain, Pval, Ptest. cbn [rbind].
  unfold accuracy_score.
  assert (Et : (length y_train =? length pred_train)%nat = true)
    by (apply Nat.eqb_eq; congruence).
  assert (Ev : (length y_val =? length pred_val)%nat = true)
    by (apply Nat.eqb_eq; congruence).
  assert (Es : (length y_test =? length pred_test)%nat = true)
    by (apply Nat.eqb_eq; congruence).
  rewrite Et, Ev, Es. unfold bind, lift, print, emit, ret.
  rewrite <- !app_assoc. cbn [app]. fold (accuracy_line "Accuracy on train set:").
  fold (accuracy_line "Accuracy on validation set:" y_val pred_val).
  fold (accuracy_line "Accuracy on test set:" y_test pred_test).
  fold (accuracy_line "Accuracy on train set:" y_train pred_train).
  match goal with
  | |- context [evaluate_sen_spec _ _ "train" ?c] => set (printed := c)
  end.
  destruct (evaluate_sen_spec_appends y_train pred_train "train"
              printed (eq_sym Htrain)) as (a1 & r1 & H1 & I1).
  rewrite H1.
  destruct r1 as [s1|e1].
  2:{ exists (Raise e1), a1. subst printed. rewrite <- app_assoc.
      split; [reflexivity|]. split; [discriminate|].
      intros [H2 _]. apply I1 in H2. destruct H2 as [s Hs]. discriminate. }
  destruct (evaluate_sen_spec_appends y_val pred_val "validation"
              (printed ++ a1) (eq_sym Hval)) as (a2 & r2 & H2 & I2).
  rewrite H2.
  destruct r2 as [s2|e2].
  2:{ exists (Raise e2), (a1 ++ a2). subst printed. rewrite <- !app_assoc.
      split; [reflexivity|]. split; [discriminate|].
      intros (_ & H3 & _). apply I2 in H3. destruct H3 as [s Hs]. discriminate. }
  destruct (evaluate_sen_spec_appends y_test pred_test "test"
              ((printed ++ a1) ++ a2) (eq_sym Htest)) as (a3 & r3 & H3 & I3).
  rewrite H3.
  destruct r3 as [s3|e3].
  2:{ exists (Raise e3), (a1 ++ a2 ++ a3). subst printed. rewrite <- !app_assoc.
      split; [reflexivity|]. split; [discriminate|].
      intros (_ & _ & H4). apply I3 in H4. destruct H4 as [s Hs]. discriminate. }
  exists (Ok tt), (a1 ++ a2 ++ a3). subst printed. rewrite <- !app_assoc.
  split; [reflexivity|]. split; [|reflexivity].
  intros _. split; [apply I1; eauto|]. split; [apply I2; eauto | apply I3; eauto].
Qed.

End EvaluationProperties.

(* ================================================================== *)
(** * Further properties: the exceptions of do_kfold_validation *)
(* ================================================================== *)

(** Every exception the computation can end in satisfies [P]. *)
Definition raises_only {A} (P : exception -> Prop) (m : py A) : Prop :=
  forall out e out', m out = (Raise e, out') -> P e.

(** A [ValueError] or a [KeyError]. *)
Definition value_or_key_error (e : exception) : Prop :=
  (exists why, e = ValueError why) \/ (exists missing, e = KeyError missing).

Lemma raises_only_bind {A B} (P : exception -> Prop) (m : py A) (k : A -> py B) :
  raises_only P m -> (forall a, raises_only P (k a)) -> raises_only P (bind m k).
Proof.
  intros Hm Hk out e out'. unfold bind.
  destruct (m out) as [[a|e0] out0] eqn:Hrun.
  - apply Hk.
  - intros Heq; injection Heq as <- _. eapply Hm, Hrun.
Qed.

Lemma raises_only_lift {A} (P : exception -> Prop) (r : result A) :
  (forall e, r = Raise e -> P e) -> raises_only P (lift r).
Proof.
  intros Hr out e out'. unfold lift. intros Heq; injection Heq as -> _.
  apply Hr. reflexivity.
Qed.

Lemma raises_only_print (P : exception -> Prop) (fmt caption : string)
    (number : float) :
  raises_only P (print fmt caption number).
Proof. intros out e out'. unfold print, emit. discriminate. Qed.

Lemma raises_only_ret {A} (P : exception -> Prop) (a : A) : raises_only P (ret a).
Proof. intros out e out'. unfold ret. discriminate. Qed.

Lemma confusion_counts_raises (y_true y_pred : list Z) (e : exception) :
  confusion_counts y_true y_pred = Raise e -> exists why, e = ValueError why.
Proof.
  unfold confusion_counts, confusion_matrix.
  destruct (_ =? _)%nat; simpl; [|intros H; injection H as <-; eauto].
  unfold unpack4.
  destruct (ravel _) as [|v0 [|v1 [|v2 [|v3 [|v4 rest]]]]];
    try destruct (_ <? _)%nat; intros H; try discriminate H;
    injection H as <-; eauto.
Qed.

Lemma evaluate_sen_spec_raises (y_true y_pred : list Z) (set_ : string) :
  raises_only value_or_key_error (evaluate_sen_spec y_true y_pred set_).
Proof.
  intros out e out'. rewrite evaluate_sen_spec_run.
  destruct (confusion_counts y_true y_pred) as [[[[tn fp] fn] tp]|e0] eqn:Hcc;
    [discriminate|].
  intros H; injection H as <- _. left. eapply confusion_counts_raises, Hcc.
Qed.

Lemma accuracy_score_raises (y_true y_pred : list Z) (e : exception) :
  accuracy_score y_true y_pred = Raise e -> exists why, e = ValueError why.
Proof.
  unfold accuracy_score. destruct (_ =? _)%nat; [discriminate|].
  intros H; injection H as <-. eauto.
Qed.

Section ExceptionProperties.

Context {G : Generator} {E : Estimator}.

(** What scikit-learn's checks of an estimator's input raise: a
    [ValueError]. *)
Definition raises_value_errors : Prop :=
  (forall X y e, gnb_fit X y = Raise e -> exists why, e = ValueError why) /\
  (forall p X e, gnb_predict p X = Raise e -> exists why, e = ValueError why).

Lemma evaluate_accuracy_raises (p : params)
    (x_train x_val x_test : DataFrame) (y_train y_val y_test : list Z) :
  raises_value_errors ->
  raises_only value_or_key_error
    (evaluate_accuracy {| fitted := Some p |} x_train x_val x_test
                       y_train y_val y_test).
Proof.
  intros [_ Hpredict].
  assert (Hscore : forall X y e,
             rbind (gnb_predict p X) (fun y_pred => accuracy_score y y_pred)
             = Raise e -> value_or_key_error e).
  { intros X y e. destruct (gnb_predict p X) as [y_pred|e0] eqn:Hp; simpl.
    - intros He. left. eapply accuracy_score_raises, He.
    - intros He; injection He as <-. left. eapply Hpredict, Hp. }
  unfold evaluate_accuracy, score, predict. cbn [fitted].
  repeat first
    [ apply evaluate_sen_spec_raises
    | apply raises_only_print
    | apply raises_only_ret
    | apply raises_only_bind; [|intros ?]
    | apply raises_only_lift; intros e He; first
        [ left; eapply Hpredict, He
        | eapply Hscore, He ] ].
Qed.

Lemma fold_selection_raises (x : DataFrame) (y : list Z)
    (fold : list nat * list nat) (e : exception) :
  fold_selection x y fold = Raise e -> exists missing, e = KeyError missing.
Proof.
  destruct fold as [train_index val_index].
  unfold fold_selection, loc, loc_series.
  repeat (destruct (filter _ _); simpl;
          [|intros H; injection H as <-; eauto]).
  discriminate.
Qed.

(** The loop, once it has run an iteration, leaves a fitted classifier
    and bound loop variables. *)
Lemma for_each_fold_state (x : DataFrame) (y : list Z)
    (folds : list (list nat * list nat)) (st st' : loop_state) :
  for_each (fold_body x y) folds st = Ok st' ->
  (folds = [] /\ st' = st) \/
  (exists p v, st' = ({| fitted := Some p |}, Some v)).
Proof.
  revert st. induction folds as [|fold folds IH]; intros st; simpl.
  - intros H; injection H as <-. auto.
  - unfold fold_body at 1, fit.
    destruct (fold_selection x y fold) as [v|e]; simpl; [|discriminate].
    destruct (gnb_fit (x_train v) (y_train v)) as [p|e]; simpl; [|discriminate].
    intros Hrest. right. apply IH in Hrest.
    destruct Hrest as [[_ ->] | Hst]; [|assumption].
    eauto.
Qed.

(** The loop raises what a selection or a fit raises. *)
Lemma for_each_fold_raises (x : DataFrame) (y : list Z)
    (folds : list (list nat * list nat)) (st : loop_state) (e : exception) :
  raises_value_errors ->
  for_each (fold_body x y) folds st = Raise e -> value_or_key_error e.
Proof.
  intros [Hfit _].
  revert st. induction folds as [|fold folds IH]; intros st; simpl;
    [discriminate|].
  unfold fold_body at 1, fit.
  destruct (fold_selection x y fold) as [v|e0] eqn:Hsel; simpl.
  - destruct (gnb_fit (x_train v) (y_train v)) as [p|e0] eqn:Hp; simpl.
    + apply IH.
    + intros H; injection H as <-. left. eapply Hfit, Hp.
  - intros H; injection H as <-. right. eapply fold_selection_raises, Hsel.
Qed.

(** X14.  The exceptions of [do_kfold_validation], for a classifier
    whose fit and prediction raise nothing but [ValueError]s (what
    scikit-learn's checks of their input raise).  Whatever the
    arguments, if the run ends in an exception, this is a [ValueError]
    (too few rows for the split, a table the classifier refuses,
    vectors of different lengths, a confusion matrix that is not 2 x 2)
    or a [KeyError] (a row label that [y] lacks).  In particular the
    variables the loop binds are bound when [evaluate_accuracy] is
    called, and the classifier is fitted when it is asked to predict. *)
Theorem do_kfold_validation_exceptions (x : DataFrame) (y : list Z)
    (x_test : DataFrame) (y_test : list Z) (global : rng)
    (out out' : console) (e : exception) :
  raises_value_errors ->
  do_kfold_validation x y x_test y_test global out = (Raise e, out') ->
  value_or_key_error e /\
  e <> NotFittedError /\ (forall name, e <> NameError name).
Proof.
  intros Hlib Hrun.
  assert (He : value_or_key_error e).
  { revert Hrun. unfold do_kfold_validation, bind, lift, kfold_loop.
    destruct (fst (split kfold (nrows x) global)) as [folds|e1] eqn:Hsplit;
      simpl.
    2:{ intros H; injection H as <- _. left. revert Hsplit.
        unfold split, kfold; simpl. destruct (_ <? _)%nat; simpl.
        - intros H; injection H as <-. eauto.
        - destruct (shuffled_indices _ _ _); discriminate. }
    destruct (for_each (fold_body x y) folds (GaussianNB, None))
      as [st|e1] eqn:Hloop.
    2:{ intros H; injection H as <- _.
        eapply for_each_fold_raises; [exact Hlib | exact Hloop]. }
    apply for_each_fold_state in Hloop.
    destruct Hloop as [[Hnil _] | (p & v & ->)].
    - apply split_kfold_inv in Hsplit. destruct Hsplit as [_ Hfolds].
      rewrite Hnil in Hfolds. discriminate Hfolds.
    - simpl. apply evaluate_accuracy_raises, Hlib. }
  split; [assumption|].
  destruct He as [[why ->] | [missing ->]]; split; intros; discriminate.
Qed.

End ExceptionProperties.

(* ================================================================== *)
(** * Further properties: rows stay aligned, runs stay the same *)
(* ================================================================== *)

Lemma find_map_values {A B} (name : string) (g : string * A -> B)
    (d : list (string * A)) :
  find (fun c => String.eqb name (fst c)) (map (fun c => (fst c, g c)) d)
  = option_map (fun c => (fst c, g c))
               (find (fun c => String.eqb name (fst c)) d).
Proof.
  induction d as [|c d IH]; simpl; [reflexivity|].
  destruct (String.eqb name (fst c)); [reflexivity | exact IH].
Qed.

(** [df.loc[labels]] on a table with one value per row: at position
    [j] every column holds the value it had in the row [labels[j]]. *)
Lemma loc_rows (x x' : DataFrame) (labels : list nat) :
  well_formed x -> loc x labels = Ok x' ->
  forall j i name col,
    nth_error labels j = Some i -> getitem x name = Ok col ->
    exists col',
      getitem x' name = Ok col' /\ nth_error col' j = nth_error col i /\
      nth_error col i <> None.
Proof.
  intros Hwf. unfold loc.
  destruct (filter _ labels) eqn:Hmissing; [|discriminate].
  intros Hx'; injection Hx' as <-. intros j i name col Hj Hcol.
  assert (Hi : (i < nrows x)%nat).
  { apply nth_error_In in Hj.
    destruct (Nat.ltb_spec i (nrows x)) as [Hlt|Hge]; [assumption|].
    assert (Hin : In i (filter (fun i => negb (i <? nrows x)%nat) labels)).
    { apply filter_In. split; [assumption|].
      apply negb_true_iff, Nat.ltb_ge. assumption. }
    rewrite Hmissing in Hin. contradiction. }
  pose proof (getitem_In _ _ Hcol) as Hin.
  unfold well_formed in Hwf. rewrite Forall_forall in Hwf.
  specialize (Hwf _ Hin). simpl in Hwf.
  revert Hcol. unfold getitem; simpl. rewrite find_map_values.
  destruct (find _ (data x)) as [[n c]|]; [simpl|discriminate].
  intros Hc; injection Hc as ->.
  eexists. split; [reflexivity|].
  rewrite (map_nth_error _ _ _ Hj).
  rewrite (nth_error_nth' col (Float nan)) by lia.
  split; [reflexivity | discriminate].
Qed.

Lemma loc_series_rows (y y' : list Z) (labels : list nat) :
  loc_series 0 y labels = Ok y' ->
  forall j i,
    nth_error labels j = Some i ->
    nth_error y' j = nth_error y i /\ nth_error y i <> None.
Proof.
  unfold loc_series.
  destruct (filter _ labels) eqn:Hmissing; [|discriminate].
  intros Hy'; injection Hy' as <-. intros j i Hj.
  assert (Hi : (i < length y)%nat).
  { apply nth_error_In in Hj.
    destruct (Nat.ltb_spec i (length y)) as [Hlt|Hge]; [assumption|].
    assert (Hin : In i (filter (fun i => negb (i <? length y)%nat) labels)).
    { apply filter_In. split; [assumption|].
      apply negb_true_iff, Nat.ltb_ge. assumption. }
    rewrite Hmissing in Hin. contradiction. }
  rewrite (map_nth_error _ _ _ Hj).
  rewrite (nth_error_nth' y 0) by lia.
  split; [reflexivity | discriminate].
Qed.

(** X15.  Features and labels stay together.  In what lines 68-69
    select from a table with one value per row, position [j] of the
    training set is row [train_index[j]] of the table: the label there
    is that row's label and every feature column holds that row's
    value; the same for the validation set and [val_index]. *)
Theorem fold_selection_keeps_rows_aligned (x : DataFrame) (y : list Z)
    (train_index val_index : list nat) (v : fold_vars) :
  well_formed x ->
  fold_selection x y (train_index, val_index) = Ok v ->
  (forall j i,
      nth_error train_index j = Some i ->
      nth_error (y_train v) j = nth_error y i /\ nth_error y i <> None /\
      forall name col,
        getitem x name = Ok col ->
        exists col',
          getitem (x_train v) name = Ok col' /\
          nth_error col' j = nth_error col i /\ nth_error col i <> None) /\
  (forall j i,
      nth_error val_index j = Some i ->
      nth_error (y_val v) j = nth_error y i /\ nth_error y i <> None /\
      forall name col,
        getitem x name = Ok col ->
        exists col',
          getitem (x_val v) name = Ok col' /\
          nth_error col' j = nth_error col i /\ nth_error col i <> None).
Proof.
  intros Hwf. unfold fold_selection.
  destruct (loc x train_index) as [xt|] eqn:Hxt; [simpl|discriminate].
  destruct (loc x val_index) as [xv|] eqn:Hxv; [simpl|discriminate].
  destruct (loc_series 0 y train_index) as [yt|] eqn:Hyt; [simpl|discriminate].
  destruct (loc_series 0 y val_index) as [yv|] eqn:Hyv; [simpl|discriminate].
  intros Hv; injection Hv as <-. simpl.
  split; intros j i Hj.
  - destruct (@loc_series_rows y yt train_index Hyt j i Hj) as [Hl Hn].
    split; [assumption|]. split; [assumption|].
    intros name col Hcol. eapply loc_rows; eassumption.
  - destruct (@loc_series_rows y yv val_index Hyv j i Hj) as [Hl Hn].
    split; [assumption|]. split; [assumption|].
    intros name col Hcol. eapply loc_rows; eassumption.
Qed.

Section Reproducibility.

Context {G : Generator} {E : Estimator}.

Lemma seeded_split (n : nat) (global global' : rng) :
  fst (split kfold n global) = fst (split kfold n global').
Proof.
  unfold split, shuffled_indices, kfold; simpl.
  destruct (n <? 5)%nat; [reflexivity|].
  destruct (rng_shuffle (RandomState 9) (seq 0 n)). reflexivity.
Qed.

(** X16.  The whole report is reproducible.  Two runs of [read_csv]
    on the same files end the same way and print the same lines,
    whatever state numpy's global generator is in at each run: the
    only random draw of the script is the seeded shuffle. *)
Theorem read_csv_reproducible (files : string -> option DataFrame)
    (global global' : rng) (out : console) :
  read_csv files global out = read_csv files global' out.
Proof.
  unfold read_csv.
  destruct (files "train_set") as [df|]; [|reflexivity].
  destruct (files "test_set") as [df_test|]; [|reflexivity].
  unfold split_dataframe, bind, lift.
  destruct (split_dataframe_values df df_test) as [[[[x y] x_test] y_test]|e];
    [|reflexivity].
  unfold do_kfold_validation, kfold_loop, bind, lift.
  rewrite (seeded_split (nrows x) global global'). reflexivity.
Qed.

End Reproducibility.

(* ================================================================== *)
(** * The properties at concrete inputs *)
(* ================================================================== *)

(** A generator to run the pipeline with: its state counts the draws,
    a seed is a state, and a shuffle rotates the list by the state. *)
#[local] Instance rotating_generator : Generator := {|
  rng := nat;
  RandomState := Z.to_nat;
  rng_shuffle := fun g l =>
    (skipn (g mod length l) l ++ firstn (g mod length l) l, S g)
|}.

(** A value an estimator computes with: a number that is not missing. *)
Definition numeric (c : cell) : bool :=
  match c with
  | Int _ => true
  | Float f => negb (PrimFloat.is_nan f || PrimFloat.is_infinity f)
  | Str _ => false
  end.

(** The check an estimator makes of a table before it computes: at
    least one row, and numbers only. *)
Definition check_array (X : DataFrame) : result unit :=
  if (nrows X =? 0)%nat then
    Raise (ValueError (InvalidInput "Found array with 0 sample(s)"))
  else if forallb (fun column => forallb numeric (snd column)) (data X) then
    Ok tt
  else
    Raise (ValueError (InvalidInput "Input contains NaN, infinity or text")).

(** An estimator to run the pipeline with: it checks its input, learns
    the label of the first training row and predicts it for every
    row. *)
#[local] Instance first_label_estimator : Estimator := {|
  params := Z;
  gnb_fit := fun X y =>
    rbind (check_array X) (fun _ =>
    if (nrows X =? length y)%nat then Ok (hd 0 y)
    else Raise (ValueError (InconsistentNumbersOfSamples (nrows X) (length y))));
  gnb_predict := fun p X =>
    rbind (check_array X) (fun _ => Ok (repeat p (nrows X)))
|}.

(** A classifier fitted to predict 1. *)
Definition sample_model : GaussianNB_model :=
  @Build_GaussianNB_model first_label_estimator (Some 1).

(** A table of six rows as [read_csv] could return it. *)
Definition sample_table : DataFrame := {|
  nrows := 6;
  data := [("dementia", [Str "Y"; Str "N"; Str "Y"; Float nan; Str "y"; Str "N"]);
           ("pauses", [Float nan; Int 2; Int 0; Int 1; Float nan; Int 3]);
           ("hesitations", [Int 4; Int 0; Int 7; Int 1; Int 2; Int 0]);
           ("retracing_reform", [Int 1; Float nan; Int 2; Int 0; Int 0; Int 1]);
           ("age", [Int 71; Int 64; Int 80; Int 59; Int 66; Int 62])]
|}.

(** Its feature columns and its labels. *)
Definition sample_features : DataFrame := {|
  nrows := 6;
  data := [("hesitations", [Int 4; Int 0; Int 7; Int 1; Int 2; Int 0]);
           ("age", [Int 71; Int 64; Int 80; Int 59; Int 66; Int 62])]
|}.

Definition sample_labels : list Z := [1; 0; 1; 0; 0; 0].

Example split_dataframe_sample :
  split_dataframe_values sample_table sample_table
  = Ok (sample_features, sample_labels, sample_features, sample_labels).
Proof. reflexivity. Qed.

(** The five folds of six rows under the rotating generator seeded
    with 9: the first fold holds two rows, the others one. *)
Example split_sample (global : nat) :
  fst (split kfold 6 global)
  = Ok [([0; 1; 2; 5], [3; 4]); ([0; 1; 2; 3; 4], [5]); ([1; 2; 3; 4; 5], [0]);
        ([0; 2; 3; 4; 5], [1]); ([0; 1; 3; 4; 5], [2])]%nat.
Proof. reflexivity. Qed.

(** Without the seed the folds would follow the state of the global
    generator. *)
Example unseeded_split_follows_global :
  fst (split {| n_splits := 5; random_state := None; shuffle := true |} 6 0%nat)
  <> fst (split {| n_splits := 5; random_state := None; shuffle := true |}
                6 1%nat).
Proof. intros H. vm_compute in H. discriminate H. Qed.

Lemma only_zero_labels_sensitivity_witness :
  exists tn fp,
    tn + fp = 3 /\
    evaluate_sen_spec [0; 0; 0] [0; 1; 0] "validation" []
    = (Ok {| tn := tn; fp := fp; fn := 0; tp := 0;
             specificity := true_divide tn (tn + fp); sensitivity := nan |},
       [Warned InvalidValue]
         ++ sen_spec_lines "validation" (true_divide tn (tn + fp)) nan).
Proof.
  apply (proj1 (@only_zero_labels_sensitivity [0; 0; 0] [0; 1; 0] "validation" []
                  ltac:(discriminate)
                  ltac:(repeat constructor)
                  ltac:(repeat (constructor; [auto|]); constructor)
                  eq_refl)).
  right; left; reflexivity.
Defined.

(** The locals of [evaluate_sen_spec] in the scenario of C6. *)
Definition scenario_locals : sen_spec :=
  {| tn := 3; fp := 1; fn := 1; tp := 3;
     specificity := 0.75%float; sensitivity := 0.75%float |}.

Lemma confusion_counts_sum_to_n_witness :
  tn scenario_locals + fp scenario_locals + fn scenario_locals
  + tp scenario_locals = Z.of_nat 8.
Proof.
  apply (@confusion_counts_sum_to_n 8 [1;1;1;1;0;0;0;0] [1;1;0;1;0;0;1;0]
           "test" [] _ scenario_locals eq_refl eq_refl eq_refl).
Defined.

Lemma unpacking_needs_both_labels_witness :
  ((exists counts, confusion_counts [0; 0; 1] [0; 1; 1] = Ok counts) <->
   In 0 ([0; 0; 1] ++ [0; 1; 1]) /\ In 1 ([0; 0; 1] ++ [0; 1; 1])) /\
  ([0; 0; 1] <> [] ->
   ~ (In 0 ([0; 0; 1] ++ [0; 1; 1]) /\ In 1 ([0; 0; 1] ++ [0; 1; 1])) ->
   confusion_matrix [0; 0; 1] [0; 1; 1] = Ok [[Z.of_nat (length [0; 0; 1])]] /\
   forall set_ out,
     evaluate_sen_spec [0; 0; 1] [0; 1; 1] set_ out
     = (Raise (ValueError (NotEnoughValuesToUnpack 4 1)), out)).
Proof.
  apply (@unpacking_needs_both_labels [0; 0; 1] [0; 1; 1]
           ltac:(repeat (constructor; [auto|]); constructor)
           ltac:(repeat (constructor; [auto|]); constructor)
           eq_refl).
Defined.

Lemma split_dataframe_column_count_witness :
  exists x y x_test y_test,
    split_dataframe_values sample_table sample_table = Ok (x, y, x_test, y_test) /\
    Z.of_nat (length (columns x)) = Z.of_nat (length (columns sample_table)) - 3 /\
    Z.of_nat (length (columns x_test))
    = Z.of_nat (length (columns sample_table)) - 3.
Proof.
  apply (@split_dataframe_column_count sample_table sample_table);
    try (repeat constructor; simpl; intuition discriminate).
Defined.

Lemma split_dataframe_label_mapping_witness :
  exists series series_test,
    getitem sample_table "dementia" = Ok series /\
    getitem sample_table "dementia" = Ok series_test /\
    Forall2 (fun v l => (v = Str "Y" -> l = 1) /\ (v <> Str "Y" -> l = 0))
            series sample_labels /\
    Forall2 (fun v l => (v = Str "Y" -> l = 1) /\ (v <> Str "Y" -> l = 0))
            series_test sample_labels.
Proof.
  apply (@split_dataframe_label_mapping sample_table sample_table
           sample_features sample_features sample_labels sample_labels eq_refl).
Defined.

(** The folds of the six sample rows (see [split_sample]). *)
Definition sample_folds : list (list nat * list nat) :=
  [([0; 1; 2; 5], [3; 4]); ([0; 1; 2; 3; 4], [5]); ([1; 2; 3; 4; 5], [0]);
   ([0; 2; 3; 4; 5], [1]); ([0; 1; 3; 4; 5], [2])]%nat.

(** What lines 68-69 select from the sample for its fifth fold. *)
Definition sample_last_selection : fold_vars :=
  Eval vm_compute in
    match fold_selection sample_features sample_labels
                         ([0; 1; 3; 4; 5], [2])%nat with
    | Ok v => v
    | Raise _ => {| x_train := sample_features; x_val := sample_features;
                    y_train := []; y_val := [] |}
    end.

(** On the sample every fold's fit succeeds. *)
Example sample_fits : fits_before sample_features sample_labels sample_folds 5.
Proof.
  intros j fold v Hj Hfold Hv.
  do 5 (destruct j as [|j];
        [injection Hfold as <-; vm_compute in Hv; injection Hv as <-;
         eexists; reflexivity|]).
  lia.
Qed.

(** The run on the sample: the five fits succeed, and the evaluation
    is that of the parameters of the fifth fold on its sets. *)
Example sample_run_evaluates :
  kfold_loop sample_features sample_labels 0%nat
  = Ok (sample_model, Some sample_last_selection) /\
  do_kfold_validation sample_features sample_labels
                      sample_features sample_labels 0%nat
  = evaluate_accuracy sample_model
                      (x_train sample_last_selection)
                      (x_val sample_last_selection) sample_features
                      (y_train sample_last_selection)
                      (y_val sample_last_selection) sample_labels.
Proof. split; reflexivity. Qed.

(** The sample with a value missing in a feature column of its last
    row. *)
Definition incomplete_features : DataFrame := {|
  nrows := 6;
  data := [("hesitations", [Int 4; Int 0; Int 7; Int 1; Int 2; Float nan]);
           ("age", [Int 71; Int 64; Int 80; Int 59; Int 66; Int 62])]
|}.

(** A missing value in a feature column: the first fit raises, and the
    run ends there with nothing printed. *)
Example incomplete_run_raises :
  do_kfold_validation incomplete_features sample_labels
                      sample_features sample_labels 0%nat []
  = (Raise (ValueError (InvalidInput "Input contains NaN, infinity or text")),
     []).
Proof. vm_compute. reflexivity. Qed.

(** A test table without rows. *)
Definition empty_features : DataFrame := {|
  nrows := 0;
  data := [("hesitations", []); ("age", [])]
|}.

(** A test set without rows: the prediction for it raises on the third
    scoring, after the accuracies of the train and the validation set
    have been printed. *)
Example empty_test_run_raises :
  exists train_line validation_line,
    do_kfold_validation sample_features sample_labels empty_features [] 0%nat []
    = (Raise (ValueError (InvalidInput "Found array with 0 sample(s)")),
       [train_line; validation_line]).
Proof. eexists _, _. vm_compute. reflexivity. Qed.

Lemma do_kfold_validation_last_fit_wins_witness :
  exists folds,
    fst (split kfold (nrows sample_features) 0%nat) = Ok folds /\
    length folds = 5%nat /\
    (forall k fold,
        nth_error folds k = Some fold ->
        exists v,
          fold_selection sample_features sample_labels fold = Ok v /\
          (forall p,
              fits_before sample_features sample_labels folds k ->
              gnb_fit (x_train v) (y_train v) = Ok p ->
              for_each (fold_body sample_features sample_labels)
                       (firstn (S k) folds) (GaussianNB, None)
              = Ok ({| fitted := Some p |}, Some v)) /\
          (forall e,
              fits_before sample_features sample_labels folds k ->
              gnb_fit (x_train v) (y_train v) = Raise e ->
              do_kfold_validation sample_features sample_labels
                                  sample_features sample_labels 0%nat
              = raise e)) /\
    (exists last v,
        nth_error folds 4 = Some last /\
        fold_selection sample_features sample_labels last = Ok v /\
        forall p,
          fits_before sample_features sample_labels folds 4 ->
          gnb_fit (x_train v) (y_train v) = Ok p ->
          do_kfold_validation sample_features sample_labels
                              sample_features sample_labels 0%nat
          = evaluate_accuracy {| fitted := Some p |}
                              (x_train v) (x_val v) sample_features
                              (y_train v) (y_val v) sample_labels).
Proof.
  apply (@do_kfold_validation_last_fit_wins rotating_generator
           first_label_estimator sample_features sample_labels
           sample_features sample_labels 0%nat).
  - simpl. lia.
  - reflexivity.
Defined.

(** The locals of [evaluate_sen_spec] on the sample labels when every
    row is predicted 1. *)
Definition sample_locals : sen_spec :=
  {| tn := 0; fp := 4; fn := 0; tp := 2;
     specificity := 0%float; sensitivity := 1%float |}.

Lemma accuracy_from_counts_is_score_witness :
  tp sample_locals + tn sample_locals
  = matches sample_labels (repeat 1 6) /\
  score sample_model sample_features sample_labels
  = Ok (true_divide (tp sample_locals + tn sample_locals)
                    (Z.of_nat (length sample_labels))).
Proof.
  apply (@accuracy_from_counts_is_score first_label_estimator
           sample_model sample_features
           sample_labels (repeat 1 6) "train" [] _ sample_locals
           eq_refl eq_refl).
Defined.

(* ================================================================== *)
(** * The further properties at concrete inputs *)
(* ================================================================== *)

Lemma rotating_shuffle_permutes (g : nat) (l : list nat) :
  Permutation (fst (rng_shuffle g l)) l.
Proof.
  simpl. rewrite Permutation_app_comm, firstn_skipn. reflexivity.
Qed.

(** The working directory of a run: both files hold the sample table. *)
Definition sample_files (name : string) : option DataFrame :=
  if String.eqb name "train_set" || String.eqb name "test_set"
  then Some sample_table else None.

Lemma confusion_counts_margins_witness :
  exists a b,
    a < b /\
    unique_labels [1;1;1;1;0;0;0;0] [1;1;0;1;0;0;1;0] = [a; b] /\
    0 <= tn scenario_locals /\ 0 <= fp scenario_locals /\
    0 <= fn scenario_locals /\ 0 <= tp scenario_locals /\
    tn scenario_locals + fp scenario_locals
    = occurrences a [1;1;1;1;0;0;0;0] /\
    fn scenario_locals + tp scenario_locals
    = occurrences b [1;1;1;1;0;0;0;0] /\
    tn scenario_locals + fn scenario_locals
    = occurrences a [1;1;0;1;0;0;1;0] /\
    fp scenario_locals + tp scenario_locals
    = occurrences b [1;1;0;1;0;0;1;0].
Proof.
  apply (@confusion_counts_margins [1;1;1;1;0;0;0;0] [1;1;0;1;0;0;1;0]
           "test" [] _ scenario_locals eq_refl).
Defined.

(** The locals of [evaluate_sen_spec] on three rows that are truly 0,
    one of them predicted 1. *)
Definition no_positive_locals : sen_spec :=
  {| tn := 2; fp := 1; fn := 0; tp := 0;
     specificity := true_divide 2 3; sensitivity := nan |}.

Lemma evaluate_sen_spec_warnings_witness :
  exists warnings,
    [Warned InvalidValue]
      ++ sen_spec_lines "validation" (true_divide 2 3) nan
    = [] ++ warnings
         ++ sen_spec_lines "validation" (specificity no_positive_locals)
                           (sensitivity no_positive_locals) /\
    Forall (eq (Warned InvalidValue)) warnings /\
    (warnings <> [] <-> ~ In 0 [0; 0; 0] \/ ~ In 1 [0; 0; 0]) /\
    (~ In 0 [0; 0; 0] -> specificity no_positive_locals = nan) /\
    (~ In 1 [0; 0; 0] -> sensitivity no_positive_locals = nan).
Proof.
  apply (@evaluate_sen_spec_warnings [0; 0; 0] [0; 1; 0] "validation" [] _
           no_positive_locals
           ltac:(repeat (constructor; [auto|]); constructor)
           ltac:(repeat (constructor; [auto|]); constructor)
           eq_refl).
Defined.

Lemma split_dataframe_features_and_labels_witness :
  features_of sample_table sample_features /\
  labels_of sample_table sample_labels /\
  features_of sample_table sample_features /\
  labels_of sample_table sample_labels.
Proof.
  apply (@split_dataframe_features_and_labels sample_table sample_table
           sample_features sample_features sample_labels sample_labels eq_refl).
Defined.

Lemma kfold_folds_are_complementary_witness :
  length sample_folds = 5%nat /\
  Forall (fun fold =>
            NoDup (fst fold) /\ NoDup (snd fold) /\
            (length (fst fold) + length (snd fold) = nrows sample_features)%nat /\
            forall i,
              ((i < nrows sample_features)%nat
               <-> In i (fst fold) \/ In i (snd fold)) /\
              ~ (In i (fst fold) /\ In i (snd fold)))
         sample_folds.
Proof.
  apply (@kfold_folds_are_complementary rotating_generator sample_features
           0%nat sample_folds eq_refl).
Defined.

(** A train table of three rows. *)
Definition small_features : DataFrame := {|
  nrows := 3;
  data := [("hesitations", [Int 4; Int 0; Int 7]); ("age", [Int 71; Int 64; Int 80])]
|}.

Lemma do_kfold_validation_small_table_witness :
  do_kfold_validation small_features [1; 0; 1] sample_features sample_labels
                      0%nat []
  = (Raise (ValueError (TooManySplits 5 (nrows small_features))), []).
Proof.
  apply (@do_kfold_validation_small_table rotating_generator
           first_label_estimator small_features [1; 0; 1] sample_features
           sample_labels 0%nat []).
  simpl. lia.
Defined.

Lemma validation_folds_partition_witness :
  Permutation (concat (map snd sample_folds)) (seq 0 (nrows sample_features)) /\
  map (fun fold => length (snd fold)) sample_folds
  = fold_sizes 5 (nrows sample_features) /\
  Forall (fun fold =>
            (nrows sample_features / 5 <= length (snd fold)
             <= nrows sample_features / 5 + 1)%nat)
         sample_folds.
Proof.
  apply (@validation_folds_partition rotating_generator
           rotating_shuffle_permutes sample_features 0%nat sample_folds eq_refl).
Defined.

Lemma do_kfold_validation_reported_sets_witness :
  exists folds last v,
    fst (split kfold (nrows sample_features) 0%nat) = Ok folds /\
    nth_error folds 4 = Some last /\
    fold_selection sample_features sample_labels last = Ok v /\
    length (snd last) = (nrows sample_features / 5)%nat /\
    length (fst last) = (nrows sample_features - nrows sample_features / 5)%nat /\
    (forall i, (i < nrows sample_features)%nat ->
               (In i (fst last) <-> ~ In i (snd last))) /\
    nrows (x_val v) = (nrows sample_features / 5)%nat /\
    length (y_val v) = (nrows sample_features / 5)%nat /\
    nrows (x_train v) = (nrows sample_features - nrows sample_features / 5)%nat /\
    length (y_train v) = (nrows sample_features - nrows sample_features / 5)%nat /\
    columns (x_train v) = columns sample_features /\
    columns (x_val v) = columns sample_features /\
    (forall p,
        fits_before sample_features sample_labels folds 4 ->
        gnb_fit (x_train v) (y_train v) = Ok p ->
        do_kfold_validation sample_features sample_labels
                            sample_features sample_labels 0%nat
        = evaluate_accuracy {| fitted := Some p |}
                            (x_train v) (x_val v) sample_features
                            (y_train v) (y_val v) sample_labels).
Proof.
  apply (@do_kfold_validation_reported_sets rotating_generator
           first_label_estimator rotating_shuffle_permutes
           sample_features sample_labels sample_features sample_labels 0%nat).
  - simpl. lia.
  - reflexivity.
Defined.

Lemma sample_table_well_formed : well_formed sample_table.
Proof. repeat constructor. Qed.

Lemma read_csv_reaches_evaluation_witness :
  exists x y x_test y_test folds,
    split_dataframe_values sample_table sample_table
    = Ok (x, y, x_test, y_test) /\
    fst (split kfold (nrows x) 0%nat) = Ok folds /\
    (forall k fold,
        nth_error folds k = Some fold ->
        exists v,
          fold_selection x y fold = Ok v /\
          forall e,
            fits_before x y folds k ->
            gnb_fit (x_train v) (y_train v) = Raise e ->
            read_csv sample_files 0%nat = raise e) /\
    (exists last v,
        nth_error folds 4 = Some last /\
        fold_selection x y last = Ok v /\
        forall p,
          fits_before x y folds 4 ->
          gnb_fit (x_train v) (y_train v) = Ok p ->
          read_csv sample_files 0%nat
          = evaluate_accuracy {| fitted := Some p |}
                              (x_train v) (x_val v) x_test
                              (y_train v) (y_val v) y_test).
Proof.
  apply (@read_csv_reaches_evaluation rotating_generator first_label_estimator
           sample_files 0%nat sample_table sample_table eq_refl eq_refl).
  - repeat constructor.
  - repeat constructor.
  - exact sample_table_well_formed.
  - simpl. lia.
Defined.

Lemma read_csv_prints_on_sample : snd (read_csv sample_files 0%nat []) <> [].
Proof. vm_compute. discriminate. Qed.

Lemma read_csv_output_needs_valid_input_witness :
  exists df df_test,
    sample_files "train_set" = Some df /\ sample_files "test_set" = Some df_test /\
    Forall (fun n => has_column df n = true) required_columns /\
    Forall (fun n => has_column df_test n = true) required_columns /\
    (5 <= nrows df)%nat.
Proof.
  apply (@read_csv_output_needs_valid_input rotating_generator
           first_label_estimator sample_files 0%nat []
           (snd (@read_csv rotating_generator first_label_estimator
                           sample_files 0%nat []))
           (fst (@read_csv rotating_generator first_label_estimator
                           sample_files 0%nat []))).
  - apply surjective_pairing.
  - exact read_csv_prints_on_sample.
Defined.

Lemma evaluate_accuracy_report_witness :
  exists r rest,
    evaluate_accuracy sample_model sample_features sample_features
                      sample_features sample_labels sample_labels sample_labels []
    = (r, [] ++ [accuracy_line "Accuracy on train set:" sample_labels
                               (repeat 1 6);
                 accuracy_line "Accuracy on validation set:" sample_labels
                               (repeat 1 6);
                 accuracy_line "Accuracy on test set:" sample_labels
                               (repeat 1 6)]
          ++ rest) /\
    (r = Ok tt <->
     length (unique_labels sample_labels (repeat 1 6)) = 2%nat /\
     length (unique_labels sample_labels (repeat 1 6)) = 2%nat /\
     length (unique_labels sample_labels (repeat 1 6)) = 2%nat).
Proof.
  apply (@evaluate_accuracy_report first_label_estimator 1 sample_features
           sample_features sample_features sample_labels sample_labels
           sample_labels (repeat 1 6) (repeat 1 6) (repeat 1 6) []
           eq_refl eq_refl eq_refl eq_refl eq_refl eq_refl).
Defined.

(** The estimator of the runs raises nothing but [ValueError]s. *)
Lemma first_label_estimator_raises : raises_value_errors.
Proof.
  split.
  - intros X y e. simpl. unfold check_array.
    destruct (nrows X =? 0)%nat; simpl; [intros H; injection H as <-; eauto|].
    destruct (forallb _ _); simpl; [|intros H; injection H as <-; eauto].
    destruct (nrows X =? length y)%nat; [discriminate|].
    intros H; injection H as <-; eauto.
  - intros p X e. simpl. unfold check_array.
    destruct (nrows X =? 0)%nat; simpl; [intros H; injection H as <-; eauto|].
    destruct (forallb _ _); simpl; [discriminate|].
    intros H; injection H as <-; eauto.
Qed.

(** What the run on the sample has printed when it ends: the three
    accuracies and the two ratios of the train set. *)
Definition sample_report : console :=
  Eval vm_compute in
    snd (do_kfold_validation sample_features sample_labels
                             sample_features sample_labels 0%nat []).

(** The run on the sample ends in the evaluation of the validation
    set, whose single row leaves a confusion matrix of one cell. *)
Lemma sample_run_raises :
  do_kfold_validation sample_features sample_labels
                      sample_features sample_labels 0%nat []
  = (Raise (ValueError (NotEnoughValuesToUnpack 4 1)), sample_report).
Proof. vm_compute. reflexivity. Qed.

Lemma do_kfold_validation_exceptions_witness :
  value_or_key_error (ValueError (NotEnoughValuesToUnpack 4 1)) /\
  ValueError (NotEnoughValuesToUnpack 4 1) <> NotFittedError /\
  (forall name, ValueError (NotEnoughValuesToUnpack 4 1) <> NameError name).
Proof.
  apply (@do_kfold_validation_exceptions rotating_generator
           first_label_estimator sample_features sample_labels sample_features
           sample_labels 0%nat [] sample_report
           (ValueError (NotEnoughValuesToUnpack 4 1))
           first_label_estimator_raises sample_run_raises).
Defined.

Lemma sample_features_well_formed : well_formed sample_features.
Proof. repeat constructor. Qed.

(** What lines 68-69 select from the sample for its first fold. *)
Definition sample_selection : fold_vars :=
  Eval vm_compute in
    match fold_selection sample_features sample_labels
                         ([0; 1; 2; 5], [3; 4])%nat with
    | Ok v => v
    | Raise _ => {| x_train := sample_features; x_val := sample_features;
                    y_train := []; y_val := [] |}
    end.

Lemma fold_selection_keeps_rows_aligned_witness :
  (forall j i,
      nth_error [0; 1; 2; 5]%nat j = Some i ->
      nth_error (y_train sample_selection) j = nth_error sample_labels i /\
      nth_error sample_labels i <> None /\
      forall name col,
        getitem sample_features name = Ok col ->
        exists col',
          getitem (x_train sample_selection) name = Ok col' /\
          nth_error col' j = nth_error col i /\ nth_error col i <> None) /\
  (forall j i,
      nth_error [3; 4]%nat j = Some i ->
      nth_error (y_val sample_selection) j = nth_error sample_labels i /\
      nth_error sample_labels i <> None /\
      forall name col,
        getitem sample_features name = Ok col ->
        exists col',
          getitem (x_val sample_selection) name = Ok col' /\
          nth_error col' j = nth_error col i /\ nth_error col i <> None).
Proof.
  apply (@fold_selection_keeps_rows_aligned sample_features sample_labels
           [0; 1; 2; 5]%nat [3; 4]%nat sample_selection
           sample_features_well_formed eq_refl).
Defined.
